(** * The video downloader page script (static/js/script.js)

    A shallow embedding of class [VideoDownloader]: its three object
    fields, the part of the document it reads and writes, the browser's
    local storage entry, the pending timers and a log of what the
    script asks of the outside world (backend requests, console
    diagnostics, timers, the file handed to the user).

    Every [async] method is run as one uninterrupted step once the
    reply of the request it awaits is known; the reply is an argument
    of the method's model.  A polling loop is driven by the list of
    replies the status endpoint gives, one per request. *)

From Stdlib Require Import ZArith NArith List Bool Lia String Ascii.
From Stdlib Require Import DecimalString DecimalN.
From Stdlib Require Import Floats.SpecFloat.
Import ListNotations.

(** ** JavaScript strings

    A JavaScript string is a sequence of UTF-16 code units.  The three
    library methods the script applies to strings are written out here:
    [trim], [split] with a one-unit separator, and [replace] with a
    string pattern (which removes the first occurrence only). *)

Module JsString.

Definition jsstring := list N.

(** An ASCII literal as a JavaScript string. *)
Definition u (s : string) : jsstring :=
  map N_of_ascii (list_ascii_of_string s).

Arguments u s%_string.

Fixpoint eqb (a b : jsstring) : bool :=
  match a, b with
  | [], [] => true
  | x :: a', y :: b' => N.eqb x y && eqb a' b'
  | _, _ => false
  end.

(** WhiteSpace and LineTerminator code points of the language
    definition; all of them are single code units. *)
Definition is_space (c : N) : bool :=
  existsb (N.eqb c)
    [9; 10; 11; 12; 13; 32; 160; 5760; 8232; 8233; 8239; 8287; 12288; 65279]%N
  || (N.leb 8192 c && N.leb c 8202).

Fixpoint trim_start (s : jsstring) : jsstring :=
  match s with
  | [] => []
  | c :: r => if is_space c then trim_start r else s
  end.

Definition trim_end (s : jsstring) : jsstring := rev (trim_start (rev s)).

Definition trim (s : jsstring) : jsstring := trim_end (trim_start s).

(** [s.split(sep)] for a separator of one code unit: never empty. *)
Fixpoint split (sep : N) (s : jsstring) : list jsstring :=
  match s with
  | [] => [[]]
  | c :: r =>
      if N.eqb c sep then [] :: split sep r
      else match split sep r with
           | p :: ps => (c :: p) :: ps
           | [] => [[c]]
           end
  end.

Fixpoint starts_with (pat s : jsstring) : bool :=
  match pat, s with
  | [], _ => true
  | x :: pat', y :: s' => N.eqb x y && starts_with pat' s'
  | _ :: _, [] => false
  end.

(** [s.replace(pat, '')]: the first occurrence of [pat] is dropped. *)
Fixpoint remove_first (pat s : jsstring) : jsstring :=
  match s with
  | [] => []
  | c :: r =>
      if starts_with pat s then skipn (List.length pat) s
      else c :: remove_first pat r
  end.

(** Decimal rendering of a non-negative integer. *)
Definition decimal (n : N) : jsstring := u (NilZero.string_of_uint (N.to_uint n)).

(** [s.padStart(2, '0')] on a decimal rendering. *)
Definition padStart2 (s : jsstring) : jsstring :=
  match s with
  | [] => u "00"
  | [c] => 48%N :: [c]
  | _ => s
  end.

(** A string is truthy when it is not empty. *)
Definition nonempty (s : jsstring) : bool :=
  match s with [] => false | _ => true end.

(** Code units of the non-ASCII characters the script prints. *)
Definition bullet : N := 8226.                       (* U+2022 *)
Definition cross_mark : jsstring := [10060%N].        (* U+274C *)
Definition hourglass : jsstring := [9203%N].          (* U+23F3 *)
Definition down_arrow : jsstring := [11015%N; 65039%N]. (* U+2B07 U+FE0F *)
Definition floppy : jsstring := [55357%N; 56510%N].   (* U+1F4BE *)

End JsString.

Import JsString.

(** ** Data exchanged with the backend *)

(** One entry of [data.formats]. *)
Record Format := mkFormat {
  format_id : jsstring;
  name : jsstring;
  type : jsstring;
  ext : jsstring
}.

(** The body of a successful [/get_info] reply. *)
Record VideoInfo := mkVideoInfo {
  title : jsstring;
  duration : N;
  thumbnail : jsstring;
  formats : list Format
}.

(** The body of a [/download_status/<id>] reply.  A field the body does
    not carry is [None] (JavaScript's [undefined]). *)
Record JobStatus := mkJobStatus {
  status : option jsstring;
  percent : option jsstring;
  speed : option jsstring;
  downloaded : option jsstring;
  total_size : option jsstring;
  completed : option N;
  error : option jsstring
}.

(** What [await fetch(...)] followed by [await response.json()] can
    give.  [..Failed] is the promise rejecting (network down, body not
    JSON) with the engine's message; [..Rejected] is a JSON body with
    [response.ok] false. *)
Inductive info_reply :=
| InfoOk (data : VideoInfo)
| InfoRejected (err : option jsstring)
| InfoFailed (message : jsstring).

Inductive start_reply :=
| StartOk (download_id : option jsstring)
| StartRejected (err : option jsstring)
| StartFailed (message : jsstring).

(** The polling loops never look at [response.ok]: any JSON body is a
    status. *)
Inductive status_reply :=
| StatusOk (s : JobStatus)
| StatusFailed (message : jsstring).

Inductive batch_reply :=
| BatchOk (batch_id : option jsstring)
| BatchRejected (err : option jsstring)
| BatchFailed (message : jsstring).

Inductive file_reply :=
| FileOk
| FileNotOk
| FileFailed (message : jsstring).

(** ** What the script asks of the outside world *)

Inductive request :=
| GetInfo (url : jsstring)
| StartDownload (url fmt ttl : jsstring)
| DownloadStatus (id : option jsstring)
| DownloadFile (id : option jsstring)
| BatchDownload (urls : list jsstring) (fmt : jsstring).

(** The three functions handed to [setTimeout]. *)
Inductive callback :=
| CheckProgress
| CheckBatchProgress (batchId : option jsstring) (total : nat)
| HideError.

(** [Delivered s] marks the point of a polling step where the reply has
    been parsed and the chain of tests on [status.status] starts: the
    per-iteration callback of the specification. *)
Inductive event :=
| Fetch (r : request)
| Delivered (s : JobStatus)
| ConsoleError (label message : jsstring)
| SetTimeout (cb : callback) (ms : nat)
| SaveAs (filename : jsstring).

(** ** The document *)

Inductive display := FromStylesheet | DisplayNone | DisplayBlock | DisplayFlex.

(** The value assigned to [progressFill.style.width]: a literal, or the
    text [`${parseFloat(raw) || 0}%`] kept with the field it is computed
    from.  This is the assignment, not the width the style engine then
    holds: it keeps the former width when the value is not a valid
    length. *)
Inductive css_width :=
| WidthLiteral (s : jsstring)
| WidthOfPercent (raw : option jsstring).

(** One [div.format-item] of the grid: the format its listener closes
    over and whether it carries the class [selected]. *)
Record format_item := mkFormatItem {
  item_format : Format;
  selected : bool
}.

(** One [div.history-item], as [saveDownloadHistory] reads it: the text
    contents of the first two [span]s found in it. *)
Record history_item := mkHistoryItem {
  span0 : jsstring;
  span1 : jsstring
}.

(** One record of the stored history. *)
Record history_record := mkHistoryRecord {
  h_title : jsstring;
  h_format : jsstring;
  h_time : jsstring
}.

(** The result of [Math.round]. *)
Inductive rounded :=
| RoundNaN
| RoundInfinity (negative : bool)
| RoundInt (z : Z).

(** The markup assigned to [batchProgress.innerHTML], by template. *)
Inductive batch_view :=
| BatchUntouched
| BatchBar (done : N) (total : nat) (progress : rounded)
| BatchCompleted (total : nat)
| BatchStarting
| BatchError (message : jsstring).

(** ** The page

    The object's fields ([currentDownloadId], [currentVideoInfo],
    [selectedFormat]), the elements of the document the script touches
    (named after their ids), and the environment: the local time the
    next [toLocaleTimeString()] reports, the [downloadHistory] entry of
    the local storage, the timers not yet fired and the log (most recent
    event first).
    [downloadBtn_onclick] tells whether [downloadBtn.onclick] has been
    set to the arrow calling [downloadFile]; [batchUrls] is the value of
    the text area of that name. *)

Record page := mkPage {
  currentDownloadId : option jsstring;
  currentVideoInfo : option VideoInfo;
  selectedFormat : option Format;
  urlInput : jsstring;
  urlError_text : jsstring;
  urlError_display : display;
  formatLoading : display;
  formatSection : display;
  videoInfo : display;
  videoThumbnail : jsstring;
  videoTitle : jsstring;
  videoDuration : jsstring;
  formatGrid : list format_item;
  progressSection : display;
  downloadBtn_display : display;
  downloadBtn_disabled : bool;
  downloadBtn_label : jsstring;
  downloadBtn_onclick : bool;
  progressFill : css_width;
  progressText : jsstring;
  downloadSpeed : jsstring;
  fileSize : jsstring;
  batchProgress : batch_view;
  batchProgress_display : display;
  batchUrls : jsstring;
  historyList : list history_item;
  clock : jsstring;
  downloadHistory : option (list history_record);
  timers : list (callback * nat);
  log : list event
}.

(** Field updates. *)

Definition set_currentDownloadId (v : option jsstring) (p : page) : page :=
  mkPage v (currentVideoInfo p) (selectedFormat p) (urlInput p)
    (urlError_text p) (urlError_display p) (formatLoading p)
    (formatSection p) (videoInfo p) (videoThumbnail p) (videoTitle p)
    (videoDuration p) (formatGrid p) (progressSection p)
    (downloadBtn_display p) (downloadBtn_disabled p) (downloadBtn_label p)
    (downloadBtn_onclick p) (progressFill p) (progressText p)
    (downloadSpeed p) (fileSize p) (batchProgress p)
    (batchProgress_display p) (batchUrls p) (historyList p) (clock p)
    (downloadHistory p) (timers p) (log p).

Definition set_currentVideoInfo (v : option VideoInfo) (p : page) : page :=
  mkPage (currentDownloadId p) v (selectedFormat p) (urlInput p)
    (urlError_text p) (urlError_display p) (formatLoading p)
    (formatSection p) (videoInfo p) (videoThumbnail p) (videoTitle p)
    (videoDuration p) (formatGrid p) (progressSection p)
    (downloadBtn_display p) (downloadBtn_disabled p) (downloadBtn_label p)
    (downloadBtn_onclick p) (progressFill p) (progressText p)
    (downloadSpeed p) (fileSize p) (batchProgress p)
    (batchProgress_display p) (batchUrls p) (historyList p) (clock p)
    (downloadHistory p) (timers p) (log p).

Definition set_selectedFormat (v : option Format) (p : page) : page :=
  mkPage (currentDownloadId p) (currentVideoInfo p) v (urlInput p)
    (urlError_text p) (urlError_display p) (formatLoading p)
    (formatSection p) (videoInfo p) (videoThumbnail p) (videoTitle p)
    (videoDuration p) (formatGrid p) (progressSection p)
    (downloadBtn_display p) (downloadBtn_disabled p) (downloadBtn_label p)
    (downloadBtn_onclick p) (progressFill p) (progressText p)
    (downloadSpeed p) (fileSize p) (batchProgress p)
    (batchProgress_display p) (batchUrls p) (historyList p) (clock p)
    (downloadHistory p) (timers p) (log p).

Definition set_urlInput (v : jsstring) (p : page) : page :=
  mkPage (currentDownloadId p) (currentVideoInfo p) (selectedFormat p) v
    (urlError_text p) (urlError_display p) (formatLoading p)
    (formatSection p) (videoInfo p) (videoThumbnail p) (videoTitle p)
    (videoDuration p) (formatGrid p) (progressSection p)
    (downloadBtn_display p) (downloadBtn_disabled p) (downloadBtn_label p)
    (downloadBtn_onclick p) (progressFill p) (progressText p)
    (downloadSpeed p) (fileSize p) (batchProgress p)
    (batchProgress_display p) (batchUrls p) (historyList p) (clock p)
    (downloadHistory p) (timers p) (log p).

Definition set_urlError_text (v : jsstring) (p : page) : page :=
  mkPage (currentDownloadId p) (currentVideoInfo p) (selectedFormat p)
    (urlInput p) v (urlError_display p) (formatLoading p) (formatSection p)
    (videoInfo p) (videoThumbnail p) (videoTitle p) (videoDuration p)
    (formatGrid p) (progressSection p) (downloadBtn_display p)
    (downloadBtn_disabled p) (downloadBtn_label p) (downloadBtn_onclick p)
    (progressFill p) (progressText p) (downloadSpeed p) (fileSize p)
    (batchProgress p) (batchProgress_display p) (batchUrls p)
    (historyList p) (clock p) (downloadHistory p) (timers p) (log p).

Definition set_urlError_display (v : display) (p : page) : page :=
  mkPage (currentDownloadId p) (currentVideoInfo p) (selectedFormat p)
    (urlInput p) (urlError_text p) v (formatLoading p) (formatSection p)
    (videoInfo p) (videoThumbnail p) (videoTitle p) (videoDuration p)
    (formatGrid p) (progressSection p) (downloadBtn_display p)
    (downloadBtn_disabled p) (downloadBtn_label p) (downloadBtn_onclick p)
    (progressFill p) (progressText p) (downloadSpeed p) (fileSize p)
    (batchProgress p) (batchProgress_display p) (batchUrls p)
    (historyList p) (clock p) (downloadHistory p) (timers p) (log p).

Definition set_formatLoading (v : display) (p : page) : page :=
  mkPage (currentDownloadId p) (currentVideoInfo p) (selectedFormat p)
    (urlInput p) (urlError_text p) (urlError_display p) v (formatSection p)
    (videoInfo p) (videoThumbnail p) (videoTitle p) (videoDuration p)
    (formatGrid p) (progressSection p) (downloadBtn_display p)
    (downloadBtn_disabled p) (downloadBtn_label p) (downloadBtn_onclick p)
    (progressFill p) (progressText p) (downloadSpeed p) (fileSize p)
    (batchProgress p) (batchProgress_display p) (batchUrls p)
    (historyList p) (clock p) (downloadHistory p) (timers p) (log p).

Definition set_formatSection (v : display) (p : page) : page :=
  mkPage (currentDownloadId p) (currentVideoInfo p) (selectedFormat p)
    (urlInput p) (urlError_text p) (urlError_display p) (formatLoading p) v
    (videoInfo p) (videoThumbnail p) (videoTitle p) (videoDuration p)
    (formatGrid p) (progressSection p) (downloadBtn_display p)
    (downloadBtn_disabled p) (downloadBtn_label p) (downloadBtn_onclick p)
    (progressFill p) (progressText p) (downloadSpeed p) (fileSize p)
    (batchProgress p) (batchProgress_display p) (batchUrls p)
    (historyList p) (clock p) (downloadHistory p) (timers p) (log p).

Definition set_videoInfo (v : display) (p : page) : page :=
  mkPage (currentDownloadId p) (currentVideoInfo p) (selectedFormat p)
    (urlInput p) (urlError_text p) (urlError_display p) (formatLoading p)
    (formatSection p) v (videoThumbnail p) (videoTitle p) (videoDuration p)
    (formatGrid p) (progressSection p) (downloadBtn_display p)
    (downloadBtn_disabled p) (downloadBtn_label p) (downloadBtn_onclick p)
    (progressFill p) (progressText p) (downloadSpeed p) (fileSize p)
    (batchProgress p) (batchProgress_display p) (batchUrls p)
    (historyList p) (clock p) (downloadHistory p) (timers p) (log p).

Definition set_videoThumbnail (v : jsstring) (p : page) : page :=
  mkPage (currentDownloadId p) (currentVideoInfo p) (selectedFormat p)
    (urlInput p) (urlError_text p) (urlError_display p) (formatLoading p)
    (formatSection p) (videoInfo p) v (videoTitle p) (videoDuration p)
    (formatGrid p) (progressSection p) (downloadBtn_display p)
    (downloadBtn_disabled p) (downloadBtn_label p) (downloadBtn_onclick p)
    (progressFill p) (progressText p) (downloadSpeed p) (fileSize p)
    (batchProgress p) (batchProgress_display p) (batchUrls p)
    (historyList p) (clock p) (downloadHistory p) (timers p) (log p).

Definition set_videoTitle (v : jsstring) (p : page) : page :=
  mkPage (currentDownloadId p) (currentVideoInfo p) (selectedFormat p)
    (urlInput p) (urlError_text p) (urlError_display p) (formatLoading p)
    (formatSection p) (videoInfo p) (videoThumbnail p) v (videoDuration p)
    (formatGrid p) (progressSection p) (downloadBtn_display p)
    (downloadBtn_disabled p) (downloadBtn_label p) (downloadBtn_onclick p)
    (progressFill p) (progressText p) (downloadSpeed p) (fileSize p)
    (batchProgress p) (batchProgress_display p) (batchUrls p)
    (historyList p) (clock p) (downloadHistory p) (timers p) (log p).

Definition set_videoDuration (v : jsstring) (p : page) : page :=
  mkPage (currentDownloadId p) (currentVideoInfo p) (selectedFormat p)
    (urlInput p) (urlError_text p) (urlError_display p) (formatLoading p)
    (formatSection p) (videoInfo p) (videoThumbnail p) (videoTitle p) v
    (formatGrid p) (progressSection p) (downloadBtn_display p)
    (downloadBtn_disabled p) (downloadBtn_label p) (downloadBtn_onclick p)
    (progressFill p) (progressText p) (downloadSpeed p) (fileSize p)
    (batchProgress p) (batchProgress_display p) (batchUrls p)
    (historyList p) (clock p) (downloadHistory p) (timers p) (log p).

Definition set_formatGrid (v : list format_item) (p : page) : page :=
  mkPage (currentDownloadId p) (currentVideoInfo p) (selectedFormat p)
    (urlInput p) (urlError_text p) (urlError_display p) (formatLoading p)
    (formatSection p) (videoInfo p) (videoThumbnail p) (videoTitle p)
    (videoDuration p) v (progressSection p) (downloadBtn_display p)
    (downloadBtn_disabled p) (downloadBtn_label p) (downloadBtn_onclick p)
    (progressFill p) (progressText p) (downloadSpeed p) (fileSize p)
    (batchProgress p) (batchProgress_display p) (batchUrls p)
    (historyList p) (clock p) (downloadHistory p) (timers p) (log p).

Definition set_progressSection (v : display) (p : page) : page :=
  mkPage (currentDownloadId p) (currentVideoInfo p) (selectedFormat p)
    (urlInput p) (urlError_text p) (urlError_display p) (formatLoading p)
    (formatSection p) (videoInfo p) (videoThumbnail p) (videoTitle p)
    (videoDuration p) (formatGrid p) v (downloadBtn_display p)
    (downloadBtn_disabled p) (downloadBtn_label p) (downloadBtn_onclick p)
    (progressFill p) (progressText p) (downloadSpeed p) (fileSize p)
    (batchProgress p) (batchProgress_display p) (batchUrls p)
    (historyList p) (clock p) (downloadHistory p) (timers p) (log p).

Definition set_downloadBtn_display (v : display) (p : page) : page :=
  mkPage (currentDownloadId p) (currentVideoInfo p) (selectedFormat p)
    (urlInput p) (urlError_text p) (urlError_display p) (formatLoading p)
    (formatSection p) (videoInfo p) (videoThumbnail p) (videoTitle p)
    (videoDuration p) (formatGrid p) (progressSection p) v
    (downloadBtn_disabled p) (downloadBtn_label p) (downloadBtn_onclick p)
    (progressFill p) (progressText p) (downloadSpeed p) (fileSize p)
    (batchProgress p) (batchProgress_display p) (batchUrls p)
    (historyList p) (clock p) (downloadHistory p) (timers p) (log p).

Definition set_downloadBtn_disabled (v : bool) (p : page) : page :=
  mkPage (currentDownloadId p) (currentVideoInfo p) (selectedFormat p)
    (urlInput p) (urlError_text p) (urlError_display p) (formatLoading p)
    (formatSection p) (videoInfo p) (videoThumbnail p) (videoTitle p)
    (videoDuration p) (formatGrid p) (progressSection p)
    (downloadBtn_display p) v (downloadBtn_label p) (downloadBtn_onclick p)
    (progressFill p) (progressText p) (downloadSpeed p) (fileSize p)
    (batchProgress p) (batchProgress_display p) (batchUrls p)
    (historyList p) (clock p) (downloadHistory p) (timers p) (log p).

Definition set_downloadBtn_label (v : jsstring) (p : page) : page :=
  mkPage (currentDownloadId p) (currentVideoInfo p) (selectedFormat p)
    (urlInput p) (urlError_text p) (urlError_display p) (formatLoading p)
    (formatSection p) (videoInfo p) (videoThumbnail p) (videoTitle p)
    (videoDuration p) (formatGrid p) (progressSection p)
    (downloadBtn_display p) (downloadBtn_disabled p) v
    (downloadBtn_onclick p) (progressFill p) (progressText p)
    (downloadSpeed p) (fileSize p) (batchProgress p)
    (batchProgress_display p) (batchUrls p) (historyList p) (clock p)
    (downloadHistory p) (timers p) (log p).

Definition set_downloadBtn_onclick (v : bool) (p : page) : page :=
  mkPage (currentDownloadId p) (currentVideoInfo p) (selectedFormat p)
    (urlInput p) (urlError_text p) (urlError_display p) (formatLoading p)
    (formatSection p) (videoInfo p) (videoThumbnail p) (videoTitle p)
    (videoDuration p) (formatGrid p) (progressSection p)
    (downloadBtn_display p) (downloadBtn_disabled p) (downloadBtn_label p) v
    (progressFill p) (progressText p) (downloadSpeed p) (fileSize p)
    (batchProgress p) (batchProgress_display p) (batchUrls p)
    (historyList p) (clock p) (downloadHistory p) (timers p) (log p).

Definition set_progressFill (v : css_width) (p : page) : page :=
  mkPage (currentDownloadId p) (currentVideoInfo p) (selectedFormat p)
    (urlInput p) (urlError_text p) (urlError_display p) (formatLoading p)
    (formatSection p) (videoInfo p) (videoThumbnail p) (videoTitle p)
    (videoDuration p) (formatGrid p) (progressSection p)
    (downloadBtn_display p) (downloadBtn_disabled p) (downloadBtn_label p)
    (downloadBtn_onclick p) v (progressText p) (downloadSpeed p)
    (fileSize p) (batchProgress p) (batchProgress_display p) (batchUrls p)
    (historyList p) (clock p) (downloadHistory p) (timers p) (log p).

Definition set_progressText (v : jsstring) (p : page) : page :=
  mkPage (currentDownloadId p) (currentVideoInfo p) (selectedFormat p)
    (urlInput p) (urlError_text p) (urlError_display p) (formatLoading p)
    (formatSection p) (videoInfo p) (videoThumbnail p) (videoTitle p)
    (videoDuration p) (formatGrid p) (progressSection p)
    (downloadBtn_display p) (downloadBtn_disabled p) (downloadBtn_label p)
    (downloadBtn_onclick p) (progressFill p) v (downloadSpeed p)
    (fileSize p) (batchProgress p) (batchProgress_display p) (batchUrls p)
    (historyList p) (clock p) (downloadHistory p) (timers p) (log p).

Definition set_downloadSpeed (v : jsstring) (p : page) : page :=
  mkPage (currentDownloadId p) (currentVideoInfo p) (selectedFormat p)
    (urlInput p) (urlError_text p) (urlError_display p) (formatLoading p)
    (formatSection p) (videoInfo p) (videoThumbnail p) (videoTitle p)
    (videoDuration p) (formatGrid p) (progressSection p)
    (downloadBtn_display p) (downloadBtn_disabled p) (downloadBtn_label p)
    (downloadBtn_onclick p) (progressFill p) (progressText p) v (fileSize p)
    (batchProgress p) (batchProgress_display p) (batchUrls p)
    (historyList p) (clock p) (downloadHistory p) (timers p) (log p).

Definition set_fileSize (v : jsstring) (p : page) : page :=
  mkPage (currentDownloadId p) (currentVideoInfo p) (selectedFormat p)
    (urlInput p) (urlError_text p) (urlError_display p) (formatLoading p)
    (formatSection p) (videoInfo p) (videoThumbnail p) (videoTitle p)
    (videoDuration p) (formatGrid p) (progressSection p)
    (downloadBtn_display p) (downloadBtn_disabled p) (downloadBtn_label p)
    (downloadBtn_onclick p) (progressFill p) (progressText p)
    (downloadSpeed p) v (batchProgress p) (batchProgress_display p)
    (batchUrls p) (historyList p) (clock p) (downloadHistory p) (timers p)
    (log p).

Definition set_batchProgress (v : batch_view) (p : page) : page :=
  mkPage (currentDownloadId p) (currentVideoInfo p) (selectedFormat p)
    (urlInput p) (urlError_text p) (urlError_display p) (formatLoading p)
    (formatSection p) (videoInfo p) (videoThumbnail p) (videoTitle p)
    (videoDuration p) (formatGrid p) (progressSection p)
    (downloadBtn_display p) (downloadBtn_disabled p) (downloadBtn_label p)
    (downloadBtn_onclick p) (progressFill p) (progressText p)
    (downloadSpeed p) (fileSize p) v (batchProgress_display p) (batchUrls p)
    (historyList p) (clock p) (downloadHistory p) (timers p) (log p).

Definition set_batchProgress_display (v : display) (p : page) : page :=
  mkPage (currentDownloadId p) (currentVideoInfo p) (selectedFormat p)
    (urlInput p) (urlError_text p) (urlError_display p) (formatLoading p)
    (formatSection p) (videoInfo p) (videoThumbnail p) (videoTitle p)
    (videoDuration p) (formatGrid p) (progressSection p)
    (downloadBtn_display p) (downloadBtn_disabled p) (downloadBtn_label p)
    (downloadBtn_onclick p) (progressFill p) (progressText p)
    (downloadSpeed p) (fileSize p) (batchProgress p) v (batchUrls p)
    (historyList p) (clock p) (downloadHistory p) (timers p) (log p).

Definition set_batchUrls (v : jsstring) (p : page) : page :=
  mkPage (currentDownloadId p) (currentVideoInfo p) (selectedFormat p)
    (urlInput p) (urlError_text p) (urlError_display p) (formatLoading p)
    (formatSection p) (videoInfo p) (videoThumbnail p) (videoTitle p)
    (videoDuration p) (formatGrid p) (progressSection p)
    (downloadBtn_display p) (downloadBtn_disabled p) (downloadBtn_label p)
    (downloadBtn_onclick p) (progressFill p) (progressText p)
    (downloadSpeed p) (fileSize p) (batchProgress p)
    (batchProgress_display p) v (historyList p) (clock p)
    (downloadHistory p) (timers p) (log p).

Definition set_historyList (v : list history_item) (p : page) : page :=
  mkPage (currentDownloadId p) (currentVideoInfo p) (selectedFormat p)
    (urlInput p) (urlError_text p) (urlError_display p) (formatLoading p)
    (formatSection p) (videoInfo p) (videoThumbnail p) (videoTitle p)
    (videoDuration p) (formatGrid p) (progressSection p)
    (downloadBtn_display p) (downloadBtn_disabled p) (downloadBtn_label p)
    (downloadBtn_onclick p) (progressFill p) (progressText p)
    (downloadSpeed p) (fileSize p) (batchProgress p)
    (batchProgress_display p) (batchUrls p) v (clock p) (downloadHistory p)
    (timers p) (log p).

Definition set_clock (v : jsstring) (p : page) : page :=
  mkPage (currentDownloadId p) (currentVideoInfo p) (selectedFormat p)
    (urlInput p) (urlError_text p) (urlError_display p) (formatLoading p)
    (formatSection p) (videoInfo p) (videoThumbnail p) (videoTitle p)
    (videoDuration p) (formatGrid p) (progressSection p)
    (downloadBtn_display p) (downloadBtn_disabled p) (downloadBtn_label p)
    (downloadBtn_onclick p) (progressFill p) (progressText p)
    (downloadSpeed p) (fileSize p) (batchProgress p)
    (batchProgress_display p) (batchUrls p) (historyList p) v
    (downloadHistory p) (timers p) (log p).

Definition set_downloadHistory (v : option (list history_record)) (p : page) : page :=
  mkPage (currentDownloadId p) (currentVideoInfo p) (selectedFormat p)
    (urlInput p) (urlError_text p) (urlError_display p) (formatLoading p)
    (formatSection p) (videoInfo p) (videoThumbnail p) (videoTitle p)
    (videoDuration p) (formatGrid p) (progressSection p)
    (downloadBtn_display p) (downloadBtn_disabled p) (downloadBtn_label p)
    (downloadBtn_onclick p) (progressFill p) (progressText p)
    (downloadSpeed p) (fileSize p) (batchProgress p)
    (batchProgress_display p) (batchUrls p) (historyList p) (clock p) v
    (timers p) (log p).

Definition set_timers (v : list (callback * nat)) (p : page) : page :=
  mkPage (currentDownloadId p) (currentVideoInfo p) (selectedFormat p)
    (urlInput p) (urlError_text p) (urlError_display p) (formatLoading p)
    (formatSection p) (videoInfo p) (videoThumbnail p) (videoTitle p)
    (videoDuration p) (formatGrid p) (progressSection p)
    (downloadBtn_display p) (downloadBtn_disabled p) (downloadBtn_label p)
    (downloadBtn_onclick p) (progressFill p) (progressText p)
    (downloadSpeed p) (fileSize p) (batchProgress p)
    (batchProgress_display p) (batchUrls p) (historyList p) (clock p)
    (downloadHistory p) v (log p).

Definition set_log (v : list event) (p : page) : page :=
  mkPage (currentDownloadId p) (currentVideoInfo p) (selectedFormat p)
    (urlInput p) (urlError_text p) (urlError_display p) (formatLoading p)
    (formatSection p) (videoInfo p) (videoThumbnail p) (videoTitle p)
    (videoDuration p) (formatGrid p) (progressSection p)
    (downloadBtn_display p) (downloadBtn_disabled p) (downloadBtn_label p)
    (downloadBtn_onclick p) (progressFill p) (progressText p)
    (downloadSpeed p) (fileSize p) (batchProgress p)
    (batchProgress_display p) (batchUrls p) (historyList p) (clock p)
    (downloadHistory p) (timers p) v.

(** ** Running a method

    A method transforms the page and either returns or throws; what it
    wrote before throwing stays written.  An exception carries its
    [message]. *)

Inductive completion (A : Type) :=
| Normal (a : A)
| Thrown (message : jsstring).

Arguments Normal {A} a.
Arguments Thrown {A} message.

Definition js (A : Type) := page -> completion A * page.

Definition ret {A} (a : A) : js A := fun p => (Normal a, p).

Definition throw {A} (message : jsstring) : js A := fun p => (Thrown message, p).

Definition bind {A B} (m : js A) (k : A -> js B) : js B :=
  fun p =>
    match m p with
    | (Normal a, p') => k a p'
    | (Thrown e, p') => (Thrown e, p')
    end.

(** [try { m } catch (error) { h error.message }] *)
Definition try_catch {A} (m : js A) (h : jsstring -> js A) : js A :=
  fun p =>
    match m p with
    | (Normal a, p') => (Normal a, p')
    | (Thrown e, p') => h e p'
    end.

(** [try { m } finally { f }], for an [f] that does not throw. *)
Definition try_finally {A} (m : js A) (f : page -> page) : js A :=
  fun p => let (r, p') := m p in (r, f p').

Definition gets {A} (f : page -> A) : js A := fun p => (Normal (f p), p).

Definition modify (f : page -> page) : js unit := fun p => (Normal tt, f p).

Definition exec {A} (m : js A) (p : page) : page := snd (m p).

Definition when (b : bool) (m : js unit) : js unit := if b then m else ret tt.

Declare Scope js_scope.
Delimit Scope js_scope with js.
Notation "x <- m ;; k" := (bind m (fun x => k))
  (at level 61, m at next level, right associativity) : js_scope.
Notation "m ;; k" := (bind m (fun _ => k))
  (at level 61, right associativity) : js_scope.
Open Scope js_scope.

Definition emit (e : event) : js unit :=
  modify (fun p => set_log (e :: log p) p).

Definition setTimeout (cb : callback) (ms : nat) : js unit :=
  modify (fun p => set_timers (timers p ++ [(cb, ms)]) p) ;;
  emit (SetTimeout cb ms).

(** [`${v}`] and [el.textContent = v] for a value that may be
    [undefined]. *)
Definition interpolate (v : option jsstring) : jsstring :=
  match v with Some s => s | None => u "undefined" end.

Definition as_text (v : option jsstring) : jsstring :=
  match v with Some s => s | None => [] end.

(** [v || fallback] on a string that may be absent. *)
Definition or_else (v : option jsstring) (fallback : jsstring) : jsstring :=
  match v with
  | Some s => if nonempty s then s else fallback
  | None => fallback
  end.

(** [!!v] on an identifier that may be [null]. *)
Definition truthy (v : option jsstring) : bool :=
  match v with Some s => nonempty s | None => false end.

(** Reading property [prop] of a value that may be [null] or
    [undefined] ([what] says which); the message is V8's. *)
Definition property {A B} (what prop : jsstring) (o : option A) (f : A -> B)
  : js B :=
  match o with
  | Some a => ret (f a)
  | None =>
      throw (u "Cannot read properties of " ++ what ++ u " (reading '"
             ++ prop ++ u "')")
  end.

(** ** showError (every call in the script passes ['urlError']) *)

Definition showError (message : option jsstring) : js unit :=
  modify (set_urlError_text (cross_mark ++ u " " ++ interpolate message)) ;;
  modify (set_urlError_display DisplayBlock) ;;
  setTimeout HideError 5000.

(** ** The download history *)

(** The item both [addToDownloadHistory] and [loadDownloadHistory]
    build: [<span><strong>title</strong></span>] and
    [<span>format • time</span>], assigned through [innerHTML].  The
    two texts below are what the parser of the browser hands back when
    the three values are plain text ([plain], further down): no [<], no
    [&], no U+0000 and no carriage return.  From other values the parser
    builds other elements and other text, which is not modelled here:
    the statements that rest on the texts of a new item, or on a run
    that saves the history with a new item in it, are made for plain
    values. *)
Definition history_markup (ttl fmt tm : jsstring) : history_item :=
  mkHistoryItem ttl (fmt ++ u " " ++ [bullet] ++ u " " ++ tm).

(** The object [saveDownloadHistory] maps an item to; [split(...)[1]]
    is [undefined] when the second span holds no bullet, and [.trim()]
    throws on it. *)
Definition record_of_item (it : history_item) : js history_record :=
  let t := remove_first (u "</strong>") (remove_first (u "<strong>") (span0 it)) in
  let f := trim (hd [] (split bullet (span1 it))) in
  tm <- property (u "undefined") (u "trim")
          (nth_error (split bullet (span1 it)) 1) trim ;;
  ret (mkHistoryRecord t f tm).

Fixpoint map_js {A B} (f : A -> js B) (l : list A) : js (list B) :=
  match l with
  | [] => ret []
  | a :: l' => b <- f a ;; bs <- map_js f l' ;; ret (b :: bs)
  end.

Definition saveDownloadHistory : js unit :=
  historyItems <- gets historyList ;;
  history <- map_js record_of_item historyItems ;;
  modify (set_downloadHistory (Some history)).

Definition addToDownloadHistory (ttl fmt : jsstring) : js unit :=
  timeString <- gets clock ;;
  let historyItem := history_markup ttl fmt timeString in
  modify (fun p => set_historyList (historyItem :: historyList p) p) ;;
  children <- gets historyList ;;
  when (10 <? List.length children)
    (modify (fun p => set_historyList (removelast (historyList p)) p)) ;;
  saveDownloadHistory.

Definition loadDownloadHistory : js unit :=
  stored <- gets downloadHistory ;;
  let history := match stored with Some h => h | None => [] end in
  modify (fun p =>
    fold_left
      (fun q item =>
         set_historyList
           (historyList q
            ++ [history_markup (h_title item) (h_format item) (h_time item)]) q)
      history p).

(** ** fetchVideoInfo, displayVideoInfo, displayFormats *)

(** [duration] is the whole number of seconds the backend reports.
    [Math.floor(info.duration / 60)] and [info.duration % 60] are
    written as the quotient and the remainder of the division by 60,
    which they are for every duration below 2^47 seconds: the quotient
    computed in binary64 is then off the exact one by less than 1/128,
    and the exact one is an integer or 1/60 at least below the next.
    Longer durations are outside this definition. *)
Definition displayVideoInfo (info : VideoInfo) : js unit :=
  modify (set_videoThumbnail (thumbnail info)) ;;
  modify (set_videoTitle (title info)) ;;
  let mins := (duration info / 60)%N in
  let secs := (duration info mod 60)%N in
  modify (set_videoDuration
            (u "Duration: " ++ decimal mins ++ u ":" ++ padStart2 (decimal secs))) ;;
  modify (set_videoInfo DisplayFlex).

Definition displayFormats (fs : list Format) : js unit :=
  modify (set_formatGrid []) ;;
  modify (fun p =>
    fold_left
      (fun q format => set_formatGrid (formatGrid q ++ [mkFormatItem format false]) q)
      fs p) ;;
  modify (set_formatSection DisplayBlock).

(** The click listener of the [i]-th item of the grid. *)
Definition clickFormat (i : nat) : js unit :=
  grid <- gets formatGrid ;;
  match nth_error grid i with
  | None => ret tt
  | Some formatItem =>
      modify (fun p =>
        set_formatGrid
          (map (fun it => mkFormatItem (item_format it) false) (formatGrid p)) p) ;;
      modify (fun p =>
        set_formatGrid
          (firstn i (formatGrid p)
           ++ mkFormatItem (item_format formatItem) true
           :: skipn (S i) (formatGrid p)) p) ;;
      modify (set_selectedFormat (Some (item_format formatItem))) ;;
      modify (set_progressSection DisplayBlock) ;;
      modify (set_downloadBtn_display DisplayBlock)
  end.

Definition fetchVideoInfo (reply : info_reply) : js unit :=
  url <- gets (fun p => trim (urlInput p)) ;;
  if negb (nonempty url) then ret tt
  else
    try_finally
      (try_catch
         (modify (set_formatLoading DisplayBlock) ;;
          modify (set_formatSection DisplayNone) ;;
          emit (Fetch (GetInfo url)) ;;
          data <- match reply with
                  | InfoFailed m => throw m
                  | InfoRejected e =>
                      throw (or_else e (u "Failed to fetch video info"))
                  | InfoOk d => ret d
                  end ;;
          modify (set_currentVideoInfo (Some data)) ;;
          displayVideoInfo data ;;
          displayFormats (formats data))
         (fun message => showError (Some message)))
      (set_formatLoading DisplayNone).

(** ** The single download: polling *)

Definition is_status (s : JobStatus) (tag : jsstring) : bool :=
  match status s with Some t => eqb t tag | None => false end.

Definition label_download_now : jsstring := down_arrow ++ u " Download Now".
Definition label_save_file : jsstring := floppy ++ u " Save File".
Definition label_starting : jsstring := hourglass ++ u " Starting Download...".

(** One run of the arrow [checkProgress] of [monitorDownloadProgress],
    given the reply to its request. *)
Definition checkProgress (reply : status_reply) : js unit :=
  try_catch
    (id <- gets currentDownloadId ;;
     emit (Fetch (DownloadStatus id)) ;;
     st <- match reply with
           | StatusFailed m => throw m
           | StatusOk s => ret s
           end ;;
     emit (Delivered st) ;;
     if is_status st (u "downloading") then
       modify (set_progressFill (WidthOfPercent (percent st))) ;;
       modify (set_progressText (as_text (percent st))) ;;
       modify (set_downloadSpeed (as_text (speed st))) ;;
       modify (set_fileSize
                 (interpolate (downloaded st) ++ u " / "
                  ++ interpolate (total_size st))) ;;
       setTimeout CheckProgress 1000
     else if is_status st (u "finished") then
       modify (set_progressFill (WidthLiteral (u "100%"))) ;;
       modify (set_progressText (u "100%")) ;;
       modify (set_downloadSpeed (u "Completed")) ;;
       modify (set_downloadBtn_disabled false) ;;
       modify (set_downloadBtn_label label_save_file) ;;
       modify (set_downloadBtn_onclick true) ;;
       info <- gets currentVideoInfo ;;
       ttl <- property (u "null") (u "title") info title ;;
       sel <- gets selectedFormat ;;
       fmt <- property (u "undefined") (u "name") sel name ;;
       addToDownloadHistory ttl fmt
     else if is_status st (u "error") then
       showError (error st) ;;
       modify (set_downloadBtn_disabled false) ;;
       modify (set_downloadBtn_label label_download_now)
     else ret tt)
    (fun message =>
       emit (ConsoleError (u "Error checking progress:") message) ;;
       setTimeout CheckProgress 2000).

(** The event loop firing a timer: the first pending timer for [cb] is
    taken off the list. *)
Definition callback_eqb (a b : callback) : bool :=
  match a, b with
  | CheckProgress, CheckProgress => true
  | CheckBatchProgress i n, CheckBatchProgress j m =>
      match i, j with
      | Some x, Some y => eqb x y
      | None, None => true
      | _, _ => false
      end && Nat.eqb n m
  | HideError, HideError => true
  | _, _ => false
  end.

Fixpoint take_timer (cb : callback) (l : list (callback * nat))
  : option (list (callback * nat)) :=
  match l with
  | [] => None
  | (c, ms) :: l' =>
      if callback_eqb cb c then Some l'
      else option_map (cons (c, ms)) (take_timer cb l')
  end.

Definition fire (cb : callback) (p : page) : option page :=
  option_map (fun l => set_timers l p) (take_timer cb (timers p)).

(** The runs of a polling arrow that timers set off: each run consumes
    one reply, and happens only if a timer for the arrow is pending. *)
Fixpoint timer_runs (cb : callback) (arrow : status_reply -> js unit)
  (replies : list status_reply) (p : page) : page :=
  match replies with
  | [] => p
  | reply :: rest =>
      match fire cb p with
      | Some p1 => timer_runs cb arrow rest (exec (arrow reply) p1)
      | None => p
      end
  end.

(** [checkProgress();] at the end of a monitor method, and the runs
    that follow from it. *)
Definition polling_loop (cb : callback) (arrow : status_reply -> js unit)
  (replies : list status_reply) (p : page) : page :=
  match replies with
  | [] => p
  | reply :: rest => timer_runs cb arrow rest (exec (arrow reply) p)
  end.

Definition checkProgress_loop : list status_reply -> page -> page :=
  polling_loop CheckProgress checkProgress.

Definition monitorDownloadProgress (replies : list status_reply) : js unit :=
  id <- gets currentDownloadId ;;
  if negb (truthy id) then ret tt
  else modify (checkProgress_loop replies).

(** ** startDownload, downloadFile, resetDownloadUI *)

Definition is_some {A} (o : option A) : bool :=
  match o with Some _ => true | None => false end.

(** [polls] are the replies the status endpoint gives to the polling
    loop that a successful start sets off. *)
Definition startDownload (reply : start_reply) (polls : list status_reply)
  : js unit :=
  sel <- gets selectedFormat ;;
  info <- gets currentVideoInfo ;;
  if negb (is_some sel) || negb (is_some info) then
    showError (Some (u "Please select a format first"))
  else
    modify (set_downloadBtn_disabled true) ;;
    modify (set_downloadBtn_label label_starting) ;;
    try_catch
      (url <- gets (fun p => trim (urlInput p)) ;;
       sel <- gets selectedFormat ;;
       fid <- property (u "undefined") (u "format_id") sel format_id ;;
       info <- gets currentVideoInfo ;;
       ttl <- property (u "null") (u "title") info title ;;
       emit (Fetch (StartDownload url fid ttl)) ;;
       download_id <- match reply with
                      | StartFailed m => throw m
                      | StartRejected e => throw (or_else e (u "Download failed"))
                      | StartOk id => ret id
                      end ;;
       modify (set_currentDownloadId download_id) ;;
       monitorDownloadProgress polls)
      (fun message =>
         showError (Some message) ;;
         modify (set_downloadBtn_disabled false) ;;
         modify (set_downloadBtn_label label_download_now)).

Definition resetDownloadUI : js unit :=
  modify (set_progressSection DisplayNone) ;;
  modify (set_downloadBtn_display DisplayNone) ;;
  modify (set_progressFill (WidthLiteral (u "0%"))) ;;
  modify (set_currentDownloadId None).

Definition downloadFile (reply : file_reply) : js unit :=
  id <- gets currentDownloadId ;;
  if negb (truthy id) then ret tt
  else
    try_catch
      (emit (Fetch (DownloadFile id)) ;;
       match reply with
       | FileFailed m => throw m
       | FileNotOk => throw (u "Failed to download file")
       | FileOk => ret tt
       end ;;
       info <- gets currentVideoInfo ;;
       ttl <- property (u "null") (u "title") info title ;;
       sel <- gets selectedFormat ;;
       e <- property (u "undefined") (u "ext") sel ext ;;
       emit (SaveAs (ttl ++ u "." ++ e)) ;;
       resetDownloadUI)
      (fun message => showError (Some message)).

(** ** The batch: polling *)

(** JavaScript numbers are IEEE 754 binary64 values. *)
Definition prec : Z := 53.
Definition emax : Z := 1024.

Definition number_of_N (n : N) : spec_float :=
  binary_normalize prec emax (Z.of_N n) 0 false.

(** [Math.round]: the integer closest to [x], the larger one at a
    tie, that is the floor of [x + 1/2] taken exactly. *)
Definition Math_round (x : spec_float) : rounded :=
  match x with
  | S754_nan => RoundNaN
  | S754_infinity s => RoundInfinity s
  | S754_zero _ => RoundInt 0
  | S754_finite s m e =>
      let v := if s then Z.neg m else Z.pos m in
      RoundInt (if (0 <=? e)%Z then v * 2 ^ e
                else (2 * v + 2 ^ (- e)) / 2 ^ (1 - e))%Z
  end.

(** [Math.round((completed / total) * 100)] *)
Definition batch_percentage (done : N) (total : nat) : rounded :=
  Math_round
    (SFmul prec emax
       (SFdiv prec emax (number_of_N done) (number_of_N (N.of_nat total)))
       (number_of_N 100)).

(** [status.completed || 0] *)
Definition completed_or_0 (s : JobStatus) : N :=
  match completed s with Some c => c | None => 0%N end.

(** One run of the arrow [checkProgress] of [monitorBatchProgress],
    which closes over [batchId] and [total]. *)
Definition checkBatchProgress (batchId : option jsstring) (total : nat)
  (reply : status_reply) : js unit :=
  try_catch
    (emit (Fetch (DownloadStatus batchId)) ;;
     st <- match reply with
           | StatusFailed m => throw m
           | StatusOk s => ret s
           end ;;
     emit (Delivered st) ;;
     if is_status st (u "processing") then
       let done := completed_or_0 st in
       let progress := batch_percentage done total in
       modify (set_batchProgress (BatchBar done total progress)) ;;
       setTimeout (CheckBatchProgress batchId total) 2000
     else if is_status st (u "finished") then
       modify (set_batchProgress (BatchCompleted total))
     else ret tt)
    (fun message =>
       emit (ConsoleError (u "Error checking batch progress:") message) ;;
       setTimeout (CheckBatchProgress batchId total) 2000).

Definition checkBatchProgress_loop (batchId : option jsstring) (total : nat)
  : list status_reply -> page -> page :=
  polling_loop (CheckBatchProgress batchId total)
    (checkBatchProgress batchId total).

Definition monitorBatchProgress (batchId : option jsstring) (total : nat)
  (replies : list status_reply) : js unit :=
  modify (checkBatchProgress_loop batchId total replies).

(** ** Observations on a run *)

(** What was logged between an earlier page and a later one, oldest
    first. *)
Definition events_since (before after : page) : list event :=
  rev (firstn (List.length (log after) - List.length (log before)) (log after)).

Definition deliveries (l : list event) : list JobStatus :=
  flat_map (fun e => match e with Delivered s => [s] | _ => [] end) l.

Definition status_requests (l : list event) : list (option jsstring) :=
  flat_map (fun e => match e with Fetch (DownloadStatus i) => [i] | _ => [] end) l.

Definition requests (l : list event) : list request :=
  flat_map (fun e => match e with Fetch r => [r] | _ => [] end) l.

Definition console_errors (l : list event) : nat :=
  List.length (filter (fun e => match e with ConsoleError _ _ => true | _ => false end) l).

Definition pending (cb : callback) (p : page) : bool :=
  is_some (take_timer cb (timers p)).

(** ** Example data *)

(** A document nothing has been written to, and a [VideoDownloader]
    whose fields are still empty. *)
Definition empty_page : page :=
  mkPage None None None
    [] [] FromStylesheet FromStylesheet FromStylesheet FromStylesheet [] [] []
    [] FromStylesheet FromStylesheet false [] false
    (WidthLiteral []) [] [] []
    BatchUntouched FromStylesheet [] []
    [] None [] [].

(** [new VideoDownloader()]: the two fields are reset and the stored
    history is shown.  (The listeners it installs are the methods
    below.) *)
Definition constructor : js unit :=
  modify (set_currentDownloadId None) ;;
  modify (set_currentVideoInfo None) ;;
  loadDownloadHistory.

Definition mp4_720 : Format := mkFormat (u "22") (u "720p") (u "video") (u "mp4").
Definition mp3_audio : Format := mkFormat (u "140") (u "Audio") (u "audio") (u "mp3").

Definition sample_info : VideoInfo :=
  mkVideoInfo (u "Launch") 125 (u "/thumb.jpg") [mp4_720; mp3_audio].

Definition status_with (tag : string) : JobStatus :=
  mkJobStatus (Some (u tag)) None None None None None None.

Arguments status_with tag%_string.

(** A page on which a download has just been started: metadata
    fetched, second format chosen, identifier received. *)
Definition polling_page : page :=
  set_clock (u "10:15:00")
    (set_currentDownloadId (Some (u "job-1"))
       (exec (clickFormat 1)
          (exec (fetchVideoInfo (InfoOk sample_info))
             (set_urlInput (u "https://example.org/v/1")
                (exec constructor empty_page))))).

(** ** Vocabulary of the statements *)

(** The second span of an item holds a bullet: [split(...)[1]] is
    defined for it. *)
Definition has_bullet (it : history_item) : bool :=
  existsb (N.eqb bullet) (span1 it).

(** The record [saveDownloadHistory] computes for an item, when it
    does not throw. *)
Definition record_of (it : history_item) : history_record :=
  mkHistoryRecord
    (remove_first (u "</strong>") (remove_first (u "<strong>") (span0 it)))
    (trim (hd [] (split bullet (span1 it))))
    (trim (nth 1 (split bullet (span1 it)) [])).

(** The children of the list after an insertion at the head. *)
Definition capped (l : list history_item) : list history_item :=
  if 10 <? List.length l then removelast l else l.


(** What a run of [checkProgress] writes, by branch. *)
Definition downloading_written (s : JobStatus) (p : page) : page :=
  set_log (SetTimeout CheckProgress 1000 :: Delivered s
           :: Fetch (DownloadStatus (currentDownloadId p)) :: log p)
    (set_timers (timers p ++ [(CheckProgress, 1000)])
       (set_fileSize (interpolate (downloaded s) ++ u " / "
                      ++ interpolate (total_size s))
          (set_downloadSpeed (as_text (speed s))
             (set_progressText (as_text (percent s))
                (set_progressFill (WidthOfPercent (percent s)) p))))).



Definition error_written (s : JobStatus) (p : page) : page :=
  set_downloadBtn_label label_download_now
    (set_downloadBtn_disabled false
       (set_log (SetTimeout HideError 5000 :: Delivered s
                 :: Fetch (DownloadStatus (currentDownloadId p)) :: log p)
          (set_timers (timers p ++ [(HideError, 5000)])
             (set_urlError_display DisplayBlock
                (set_urlError_text (cross_mark ++ u " " ++ interpolate (error s))
                   p))))).

Definition unhandled_written (id : option jsstring) (s : JobStatus) (p : page)
  : page :=
  set_log (Delivered s :: Fetch (DownloadStatus id) :: log p) p.

Definition failed_written (label : jsstring) (cb : callback)
  (id : option jsstring) (message : jsstring) (p : page) : page :=
  set_log (SetTimeout cb 2000 :: ConsoleError label message
           :: Fetch (DownloadStatus id) :: log p)
    (set_timers (timers p ++ [(cb, 2000)]) p).

(** The events of one polling step, oldest first. *)
Definition continued (id : option jsstring) (ms : nat) (cb : callback)
  (s : JobStatus) : list event :=
  [Fetch (DownloadStatus id); Delivered s; SetTimeout cb ms].

Definition retried (label : jsstring) (id : option jsstring) (cb : callback)
  (message : jsstring) : list event :=
  [Fetch (DownloadStatus id); ConsoleError label message; SetTimeout cb 2000].

Definition stopped (id : option jsstring) (s : JobStatus) : list event :=
  [Fetch (DownloadStatus id); Delivered s].

(** What a run of the batch arrow writes, by branch. *)
Definition processing_written (batchId : option jsstring) (total : nat)
  (s : JobStatus) (p : page) : page :=
  set_log (SetTimeout (CheckBatchProgress batchId total) 2000 :: Delivered s
           :: Fetch (DownloadStatus batchId) :: log p)
    (set_timers (timers p ++ [(CheckBatchProgress batchId total, 2000)])
       (set_batchProgress
          (BatchBar (completed_or_0 s) total
             (batch_percentage (completed_or_0 s) total)) p)).

Definition batch_finished_written (batchId : option jsstring) (total : nat)
  (s : JobStatus) (p : page) : page :=
  set_batchProgress (BatchCompleted total)
    (set_log (Delivered s :: Fetch (DownloadStatus batchId) :: log p) p).


(** The replies on which a polling arrow asks to be run again: the
    status it keeps polling on, and every failed request. *)
Definition keeps_polling (tag : jsstring) (r : status_reply) : bool :=
  match r with
  | StatusOk s => is_status s tag
  | StatusFailed _ => true
  end.

Definition step_events (label : jsstring) (cb : callback) (ms : nat)
  (id : option jsstring) (r : status_reply) : list event :=
  match r with
  | StatusOk s => continued id ms cb s
  | StatusFailed m => retried label id cb m
  end.

(** What the polling steps that keep the loop going leave alone. *)
Definition job_state (p : page) :=
  (currentDownloadId p, currentVideoInfo p, selectedFormat p,
   (historyList p, clock p, downloadHistory p),
   (urlError_text p, urlError_display p),
   (downloadBtn_display p, downloadBtn_disabled p, downloadBtn_label p,
    downloadBtn_onclick p),
   (batchProgress p, progressSection p)).

Definition batch_state (p : page) :=
  (currentDownloadId p, currentVideoInfo p, selectedFormat p,
   (historyList p, clock p, downloadHistory p),
   (urlError_text p, urlError_display p),
   (downloadBtn_display p, downloadBtn_disabled p, downloadBtn_label p,
    downloadBtn_onclick p),
   (progressFill p, progressText p, downloadSpeed p, fileSize p,
    progressSection p)).

(** C3 as the specification words it: on a status [s] the run delivers
    [s] and sets a timer of 1000 ms for the next run. *)
Definition delivered_and_rescheduled (s : JobStatus) (p : page) : Prop :=
  let p' := exec (checkProgress (StatusOk s)) p in
  deliveries (events_since p p') = [s]
  /\ In (SetTimeout CheckProgress 1000) (events_since p p').

(** C4 as the specification words it: on [error] the message is shown,
    the identifier is dropped, selection and metadata stay. *)
Definition error_discards_job (s : JobStatus) (p : page) : Prop :=
  let p' := exec (checkProgress (StatusOk s)) p in
  urlError_text p' = cross_mark ++ u " " ++ interpolate (error s)
  /\ currentDownloadId p' = None
  /\ selectedFormat p' = selectedFormat p
  /\ currentVideoInfo p' = currentVideoInfo p.

Definition error_status (message : string) : JobStatus :=
  mkJobStatus (Some (u "error")) None None None None None (Some (u message)).

Arguments error_status message%_string.

(** C5 as the specification words it: a successful metadata fetch
    installs the new metadata and formats and clears the selection. *)
Definition fetch_clears_selection (d : VideoInfo) (p : page) : Prop :=
  let p' := exec (fetchVideoInfo (InfoOk d)) p in
  currentVideoInfo p' = Some d
  /\ map item_format (formatGrid p') = formats d
  /\ selectedFormat p' = None.

Definition webm_480 : Format := mkFormat (u "43") (u "480p") (u "video") (u "webm").

Definition other_info : VideoInfo :=
  mkVideoInfo (u "Landing") 59 (u "/thumb2.jpg") [webm_480].

Definition unselected (f : Format) : format_item := mkFormatItem f false.

(** What a successful [fetchVideoInfo] writes. *)
Definition info_written (d : VideoInfo) (p : page) : page :=
  set_formatLoading DisplayNone
    (set_formatSection DisplayBlock
       (set_formatGrid (map unselected (formats d))
          (set_videoInfo DisplayFlex
             (set_videoDuration
                (u "Duration: " ++ decimal (duration d / 60) ++ u ":"
                 ++ padStart2 (decimal (duration d mod 60)))
                (set_videoTitle (title d)
                   (set_videoThumbnail (thumbnail d)
                      (set_currentVideoInfo (Some d)
                         (set_log (Fetch (GetInfo (trim (urlInput p))) :: log p)
                            p)))))))).

(** What [showError] writes after the events [evs] (most recent
    first). *)
Definition error_shown (message : jsstring) (evs : list event) (p : page)
  : page :=
  set_log (SetTimeout HideError 5000 :: evs ++ log p)
    (set_timers (timers p ++ [(HideError, 5000)])
       (set_urlError_display DisplayBlock
          (set_urlError_text (cross_mark ++ u " " ++ message) p))).

(** What a successful [downloadFile] writes. *)
Definition file_saved (v : VideoInfo) (f : Format) (p : page) : page :=
  set_currentDownloadId None
    (set_progressFill (WidthLiteral (u "0%"))
       (set_downloadBtn_display DisplayNone
          (set_progressSection DisplayNone
             (set_log (SaveAs (title v ++ u "." ++ ext f)
                       :: Fetch (DownloadFile (currentDownloadId p)) :: log p)
                p)))).

(** The message of a failed retrieval. *)
Definition file_error (reply : file_reply) : jsstring :=
  match reply with
  | FileFailed m => m
  | _ => u "Failed to download file"
  end.

(** ** The history store, entry by entry *)

(** One completed download: its title, the name of its format and the
    local time [toLocaleTimeString()] gave when it finished. *)
Definition markup_of (e : history_record) : history_item :=
  history_markup (h_title e) (h_format e) (h_time e).

Definition append (e : history_record) (p : page) : page :=
  exec (addToDownloadHistory (h_title e) (h_format e)) (set_clock (h_time e) p).

Definition append_all (es : list history_record) (p : page) : page :=
  fold_left (fun q e => append e q) es p.

(** The page after a reload: a fresh document and a fresh object, the
    local storage carried over. *)
Definition reload (stored : option (list history_record)) : page :=
  exec constructor (set_downloadHistory stored empty_page).

(** The code units the parser behind [innerHTML] does not hand back as
    they are in the text of an element: [<] opens a tag, [&] opens a
    character reference, U+0000 is dropped and a carriage return
    becomes a line feed. *)
Definition markup_unit (c : N) : bool :=
  N.eqb c 60 || N.eqb c 38 || N.eqb c 0 || N.eqb c 13.

(** Plain text: assigned through [innerHTML] inside an element, it is
    the text content of that element. *)
Definition plain (t : jsstring) : bool :=
  forallb (fun c => negb (markup_unit c)) t.

Definition plain_record (e : history_record) : bool :=
  plain (h_title e) && plain (h_format e) && plain (h_time e).


Definition no_bullet (s : jsstring) : bool :=
  negb (existsb (N.eqb bullet) s).

(** Nothing for [trim] to remove. *)
Definition trimmed (s : jsstring) : Prop :=
  trim_start s = s /\ trim_end s = s.


(** What the page shows for an entry: the title in the first span; the
    format name, a bullet between two spaces and the time in the
    second. *)
Definition shown (e : history_record) : history_item :=
  mkHistoryItem (h_title e)
    (h_format e ++ [32; bullet; 32]%N ++ h_time e).





(** Eleven sample entries, the oldest first. *)
Definition sample_entry (n : N) : history_record :=
  mkHistoryRecord (u "Clip " ++ decimal n) (u "720p")
    (u "10:15:" ++ padStart2 (decimal n)).

Definition sample_entries : list history_record :=
  map sample_entry [1; 2; 3; 4; 5; 6; 7; 8; 9; 10; 11]%N.

(** ** The batch percentage, as the specification words it *)

(** [round(completed/total*100)] on the rational number: the integer
    closest to [100 c / t], the larger one at a tie. *)
Definition exact_percentage (c t : Z) : Z := ((200 * c + t) / (2 * t))%Z.

(** C9 as the specification words it. *)
Definition percentage_is_exact (c : N) (t : nat) : Prop :=
  batch_percentage c t = RoundInt (exact_percentage (Z.of_N c) (Z.of_nat t)).

Definition agrees (c t : nat) : bool :=
  match batch_percentage (N.of_nat c) t with
  | RoundInt z => Z.eqb z (exact_percentage (Z.of_nat c) (Z.of_nat t))
  | _ => false
  end.

(** The check of all pairs [c <= t] for [1 <= t <= T]. *)
Definition agree_upto (T : nat) : bool :=
  forallb (fun t => forallb (fun c => agrees c t) (seq 0 (S t))) (seq 1 T).

Definition processing_status (c : option N) : JobStatus :=
  mkJobStatus (Some (u "processing")) None None None None c None.

(** ** startBatchDownload *)

Definition newline : N := 10.

(** [urlsText.split('\n').filter(url => url.trim()).map(url => url.trim())] *)
Definition batch_urls (urlsText : jsstring) : list jsstring :=
  map trim (filter (fun url => nonempty (trim url)) (split newline urlsText)).

(** [polls] are the replies the status endpoint gives to the polling
    loop that a successful submission sets off. *)
Definition startBatchDownload (reply : batch_reply) (polls : list status_reply)
  : js unit :=
  urlsText <- gets (fun p => trim (batchUrls p)) ;;
  if negb (nonempty urlsText) then ret tt
  else
    let urls := batch_urls urlsText in
    modify (set_batchProgress_display DisplayBlock) ;;
    modify (set_batchProgress BatchStarting) ;;
    try_catch
      (sel <- gets selectedFormat ;;
       let fmt := or_else (option_map format_id sel) (u "best") in
       emit (Fetch (BatchDownload urls fmt)) ;;
       batch_id <- match reply with
                   | BatchFailed m => throw m
                   | BatchRejected e =>
                       throw (or_else e (u "Batch download failed"))
                   | BatchOk id => ret id
                   end ;;
       monitorBatchProgress batch_id (List.length urls) polls)
      (fun message => modify (set_batchProgress (BatchError message))).

(** ** Vocabulary of the further statements *)

Definition not_space (c : N) : bool := negb (is_space c).

(** The message a rejected or failed request ends up showing. *)
Definition info_error (reply : info_reply) : jsstring :=
  match reply with
  | InfoFailed m => m
  | InfoRejected e => or_else e (u "Failed to fetch video info")
  | InfoOk _ => []
  end.

Definition start_error (reply : start_reply) : jsstring :=
  match reply with
  | StartFailed m => m
  | StartRejected e => or_else e (u "Download failed")
  | StartOk _ => []
  end.

Definition batch_error (reply : batch_reply) : jsstring :=
  match reply with
  | BatchFailed m => m
  | BatchRejected e => or_else e (u "Batch download failed")
  | BatchOk _ => []
  end.

Definition info_ok (reply : info_reply) : bool :=
  match reply with InfoOk _ => true | _ => false end.

Definition start_ok (reply : start_reply) : bool :=
  match reply with StartOk _ => true | _ => false end.

Definition batch_ok (reply : batch_reply) : bool :=
  match reply with BatchOk _ => true | _ => false end.

(** The number of grid items carrying the class [selected]. *)
Definition selected_count (grid : list format_item) : nat :=
  List.length (filter selected grid).

(** Clicks on grid items, one after the other. *)
Definition click_all (clicks : list nat) (p : page) : page :=
  fold_left (fun q i => exec (clickFormat i) q) clicks p.

(** The statuses among replies, in order. *)
Definition statuses_of (rs : list status_reply) : list JobStatus :=
  flat_map (fun r => match r with StatusOk s => [s] | StatusFailed _ => [] end) rs.



(** What [startDownload] has written when the backend accepted the
    job and [monitorDownloadProgress] is called. *)
Definition started (id : option jsstring) (v : VideoInfo) (f : Format)
  (p : page) : page :=
  set_currentDownloadId id
    (set_log (Fetch (StartDownload (trim (urlInput p)) (format_id f) (title v))
              :: log p)
       (set_downloadBtn_label label_starting
          (set_downloadBtn_disabled true p))).

(** What [startBatchDownload] has written when its request goes out. *)
Definition batch_started (urls : list jsstring) (fmt : jsstring) (p : page)
  : page :=
  set_log (Fetch (BatchDownload urls fmt) :: log p)
    (set_batchProgress BatchStarting
       (set_batchProgress_display DisplayBlock p)).

(** [this.selectedFormat?.format_id || 'best'] *)
Definition batch_format (p : page) : jsstring :=
  or_else (option_map format_id (selectedFormat p)) (u "best").

(** The arrow [showError] hands to [setTimeout], and the event loop
    running the oldest pending one (all have the same delay, so they
    fire in the order they were set). *)
Definition hideError : js unit := modify (set_urlError_display DisplayNone).

Definition run_hideError (p : page) : page :=
  match fire HideError p with
  | Some p1 => exec hideError p1
  | None => p
  end.

(** * Properties *)

(** ** Strings *)

Lemma jsstring_eqb_eq (a b : jsstring) : eqb a b = true <-> a = b.
Proof.
  revert b; induction a as [|x a IH]; intros [|y b]; simpl; split;
    try congruence; try reflexivity.
  - intros H. apply andb_true_iff in H as [Hx Hab].
    apply N.eqb_eq in Hx. apply IH in Hab. congruence.
  - intros H. injection H as -> ->. rewrite N.eqb_refl. simpl.
    now apply IH.
Qed.

Lemma jsstring_eqb_refl (a : jsstring) : eqb a a = true.
Proof. now apply jsstring_eqb_eq. Qed.

Lemma split_not_nil (sep : N) (s : jsstring) : split sep s <> [].
Proof.
  destruct s as [|c r]; simpl; [discriminate|].
  destruct (N.eqb c sep); [discriminate|].
  destruct (split sep r); discriminate.
Qed.

(** A string without the separator is one piece. *)
Lemma split_without (sep : N) (s : jsstring) :
  existsb (N.eqb sep) s = false -> split sep s = [s].
Proof.
  induction s as [|c r IH]; simpl; [reflexivity|].
  intros H. apply orb_false_iff in H as [Hc Hr].
  rewrite N.eqb_sym, Hc. now rewrite (IH Hr).
Qed.

(** Splitting at the first separator. *)
Lemma split_at_first (sep : N) (a b : jsstring) :
  existsb (N.eqb sep) a = false ->
  split sep (a ++ sep :: b) = a :: split sep b.
Proof.
  induction a as [|c r IH]; simpl.
  - intros _. now rewrite N.eqb_refl.
  - intros H. apply orb_false_iff in H as [Hc Hr].
    rewrite N.eqb_sym, Hc. now rewrite (IH Hr).
Qed.

(** Every string splits at its first separator, if it has one. *)
Lemma first_separator (sep : N) (s : jsstring) :
  existsb (N.eqb sep) s = true ->
  exists a b, s = a ++ sep :: b /\ existsb (N.eqb sep) a = false.
Proof.
  induction s as [|c r IH]; simpl; [discriminate|].
  destruct (N.eqb sep c) eqn:E; simpl.
  - intros _. apply N.eqb_eq in E. subst c. now exists [], r.
  - intros H. destruct (IH H) as (a & b & -> & Ha).
    exists (c :: a), b. simpl. now rewrite E.
Qed.

(** [split(sep)[1]] is defined exactly when the separator occurs. *)
Lemma second_piece (sep : N) (s : jsstring) :
  is_some (nth_error (split sep s) 1) = existsb (N.eqb sep) s.
Proof.
  destruct (existsb (N.eqb sep) s) eqn:E.
  - destruct (first_separator _ _ E) as (a & b & -> & Ha).
    rewrite split_at_first by assumption. simpl.
    destruct (split sep b) eqn:Eb; [now apply split_not_nil in Eb|reflexivity].
  - now rewrite split_without.
Qed.

(** The pieces hold no separator. *)
Lemma split_pieces (sep : N) (s : jsstring) :
  Forall (fun piece => existsb (N.eqb sep) piece = false) (split sep s).
Proof.
  induction s as [|c r IH]; simpl; [now constructor|].
  destruct (N.eqb c sep) eqn:E; [now constructor|].
  destruct (split sep r) as [|piece ps] eqn:Er; [now apply split_not_nil in Er|].
  inversion IH; subst. constructor; [|assumption].
  simpl. now rewrite N.eqb_sym, E.
Qed.

(** ** Timers *)

Lemma callback_eqb_refl (cb : callback) : callback_eqb cb cb = true.
Proof.
  destruct cb as [|[i|] n|]; simpl; try reflexivity;
    now rewrite ?jsstring_eqb_refl, Nat.eqb_refl.
Qed.

Lemma take_timer_new (cb : callback) (l : list (callback * nat)) (ms : nat) :
  take_timer cb l = None -> take_timer cb (l ++ [(cb, ms)]) = Some l.
Proof.
  induction l as [|[c n] l IH]; simpl.
  - now rewrite callback_eqb_refl.
  - destruct (callback_eqb cb c); [discriminate|].
    destruct (take_timer cb l); [discriminate|].
    intros _. now rewrite IH.
Qed.

Lemma take_timer_other (cb c : callback) (l : list (callback * nat)) (ms : nat) :
  callback_eqb cb c = false ->
  take_timer cb l = None -> take_timer cb (l ++ [(c, ms)]) = None.
Proof.
  intros Hc. induction l as [|[c' n] l IH]; simpl.
  - now rewrite Hc.
  - destruct (callback_eqb cb c'); [discriminate|].
    destruct (take_timer cb l); [discriminate|].
    intros _. now rewrite IH.
Qed.

Lemma not_pending (cb : callback) (p : page) :
  pending cb p = false -> take_timer cb (timers p) = None.
Proof.
  unfold pending. now destruct (take_timer cb (timers p)).
Qed.

(** ** The history *)

Lemma record_of_item_ok (it : history_item) (p : page) :
  has_bullet it = true -> record_of_item it p = (Normal (record_of it), p).
Proof.
  unfold has_bullet, record_of_item, record_of. intros H.
  rewrite <- second_piece in H.
  destruct (nth_error (split bullet (span1 it)) 1) as [piece|] eqn:E;
    [|discriminate].
  rewrite (nth_error_nth _ _ _ E). reflexivity.
Qed.

Lemma map_js_records (l : list history_item) (p : page) :
  forallb has_bullet l = true ->
  map_js record_of_item l p = (Normal (map record_of l), p).
Proof.
  induction l as [|it l IH]; simpl; [reflexivity|].
  intros H. apply andb_true_iff in H as [Hit Hl].
  unfold bind. rewrite (record_of_item_ok it p Hit), (IH Hl). reflexivity.
Qed.

Lemma markup_has_bullet (t f tm : jsstring) :
  has_bullet (history_markup t f tm) = true.
Proof.
  unfold has_bullet, history_markup. cbn [span1].
  rewrite !existsb_app. cbn [existsb]. rewrite N.eqb_refl.
  cbn [orb]. now rewrite !orb_true_r.
Qed.

Lemma forallb_removelast {A} (f : A -> bool) (l : list A) :
  forallb f l = true -> forallb f (removelast l) = true.
Proof.
  induction l as [|a [|b l] IH]; simpl; try reflexivity.
  intros H. apply andb_true_iff in H as [-> H]. simpl in IH. now apply IH.
Qed.

Lemma capped_has_bullet (l : list history_item) :
  forallb has_bullet l = true -> forallb has_bullet (capped l) = true.
Proof.
  unfold capped. destruct (10 <? List.length l); [apply forallb_removelast|easy].
Qed.

Lemma saveDownloadHistory_ok (p : page) :
  forallb has_bullet (historyList p) = true ->
  saveDownloadHistory p =
  (Normal tt, set_downloadHistory (Some (map record_of (historyList p))) p).
Proof.
  intros H. unfold saveDownloadHistory, bind, gets, modify.
  now rewrite (map_js_records _ p H).
Qed.

(** [addToDownloadHistory] up to its call of [saveDownloadHistory]. *)
Lemma addToDownloadHistory_saves (t f : jsstring) (p : page) :
  addToDownloadHistory t f p =
  saveDownloadHistory
    (set_historyList (capped (history_markup t f (clock p) :: historyList p)) p).
Proof.
  unfold addToDownloadHistory, capped, bind, gets, modify, when, ret.
  cbv beta iota.
  change (historyList (set_historyList ?l p)) with l.
  destruct (10 <? _); [|reflexivity].
  cbv beta iota. f_equal; now destruct p.
Qed.


(** ** One run of checkProgress *)

Lemma is_status_tag (s : JobStatus) (tag : jsstring) :
  is_status s tag = true -> status s = Some tag.
Proof.
  unfold is_status. destruct (status s) as [t|]; [|discriminate].
  intros H. apply jsstring_eqb_eq in H. now subst.
Qed.

Lemma is_status_other (s : JobStatus) (a b : jsstring) :
  is_status s a = true -> eqb a b = false -> is_status s b = false.
Proof.
  intros H E. apply is_status_tag in H. unfold is_status. now rewrite H.
Qed.

Lemma checkProgress_downloading (s : JobStatus) (p : page) :
  is_status s (u "downloading") = true ->
  exec (checkProgress (StatusOk s)) p = downloading_written s p.
Proof.
  intros H. apply is_status_tag in H.
  destruct s, p; simpl in H; subst.
  vm_compute. reflexivity.
Qed.



Lemma checkProgress_error (s : JobStatus) (p : page) :
  is_status s (u "error") = true ->
  exec (checkProgress (StatusOk s)) p = error_written s p.
Proof.
  intros H. apply is_status_tag in H.
  destruct s, p; simpl in H; subst.
  vm_compute. reflexivity.
Qed.

Lemma checkProgress_unhandled (s : JobStatus) (p : page) :
  is_status s (u "downloading") = false ->
  is_status s (u "finished") = false ->
  is_status s (u "error") = false ->
  exec (checkProgress (StatusOk s)) p =
  unhandled_written (currentDownloadId p) s p.
Proof.
  intros H1 H2 H3.
  unfold checkProgress, exec, try_catch, bind, gets, emit, modify, ret.
  cbv beta iota. rewrite H1, H2, H3. now destruct p.
Qed.

Lemma checkProgress_failed (message : jsstring) (p : page) :
  exec (checkProgress (StatusFailed message)) p =
  failed_written (u "Error checking progress:") CheckProgress
    (currentDownloadId p) message p.
Proof. destruct p. vm_compute. reflexivity. Qed.

(** ** One run of the batch arrow *)

Lemma checkBatchProgress_processing (batchId : option jsstring) (total : nat)
  (s : JobStatus) (p : page) :
  is_status s (u "processing") = true ->
  exec (checkBatchProgress batchId total (StatusOk s)) p =
  processing_written batchId total s p.
Proof.
  intros H.
  unfold checkBatchProgress, exec, try_catch, bind, gets, emit, modify, ret,
    setTimeout.
  cbv beta iota. rewrite H. now destruct p.
Qed.

Lemma checkBatchProgress_finished (batchId : option jsstring) (total : nat)
  (s : JobStatus) (p : page) :
  is_status s (u "finished") = true ->
  exec (checkBatchProgress batchId total (StatusOk s)) p =
  batch_finished_written batchId total s p.
Proof.
  intros H.
  assert (Hp : is_status s (u "processing") = false)
    by (apply (is_status_other s _ _ H); reflexivity).
  unfold checkBatchProgress, exec, try_catch, bind, gets, emit, modify, ret.
  cbv beta iota. rewrite Hp, H. now destruct p.
Qed.

Lemma checkBatchProgress_unhandled (batchId : option jsstring) (total : nat)
  (s : JobStatus) (p : page) :
  is_status s (u "processing") = false ->
  is_status s (u "finished") = false ->
  exec (checkBatchProgress batchId total (StatusOk s)) p =
  unhandled_written batchId s p.
Proof.
  intros H1 H2.
  unfold checkBatchProgress, exec, try_catch, bind, gets, emit, modify, ret.
  cbv beta iota. rewrite H1, H2. now destruct p.
Qed.

Lemma checkBatchProgress_failed (batchId : option jsstring) (total : nat)
  (message : jsstring) (p : page) :
  exec (checkBatchProgress batchId total (StatusFailed message)) p =
  failed_written (u "Error checking batch progress:")
    (CheckBatchProgress batchId total) batchId message p.
Proof.
  unfold checkBatchProgress, exec, try_catch, bind, gets, emit, modify, ret,
    throw, setTimeout.
  cbv beta iota. now destruct p.
Qed.

(** ** The polling loop, for any arrow

    [keeps r] tells the replies on which the arrow asks to be run again;
    on those it logs [evs r] and keeps [I]. *)

Section Polling.

Variable cb : callback.
Variable arrow : status_reply -> js unit.
Variable keeps : status_reply -> bool.
Variable evs : status_reply -> list event.
Variable I : page -> Prop.

Hypothesis I_timers : forall p tl, I p -> I (set_timers tl p).

Hypothesis step_spec : forall r p,
  keeps r = true -> I p ->
  exists d,
    timers (exec (arrow r) p) = timers p ++ [(cb, d)]
    /\ log (exec (arrow r) p) = rev (evs r) ++ log p
    /\ I (exec (arrow r) p).

Lemma fire_armed (p : page) (tl : list (callback * nat)) (d : nat) :
  timers p = tl ++ [(cb, d)] -> take_timer cb tl = None ->
  fire cb p = Some (set_timers tl p).
Proof.
  intros Ht Hn. unfold fire. now rewrite Ht, (take_timer_new cb tl d Hn).
Qed.

Lemma timer_runs_idle (rs : list status_reply) (p : page) :
  take_timer cb (timers p) = None -> timer_runs cb arrow rs p = p.
Proof.
  intros H. destruct rs as [|r rs]; [reflexivity|].
  simpl. unfold fire. now rewrite H.
Qed.

Lemma timer_runs_keep (rs : list status_reply) :
  forall (p : page) (tl : list (callback * nat)) (d : nat),
    forallb keeps rs = true -> I p ->
    timers p = tl ++ [(cb, d)] -> take_timer cb tl = None ->
    exists q d',
      (forall tail,
          timer_runs cb arrow (rs ++ tail) p = timer_runs cb arrow tail q)
      /\ timers q = tl ++ [(cb, d')]
      /\ log q = rev (flat_map evs rs) ++ log p
      /\ I q.
Proof.
  induction rs as [|r rs IH]; intros p tl d Hk HI Ht Hn.
  - exists p, d. repeat split; auto.
  - simpl in Hk. apply andb_true_iff in Hk as [Hr Hk].
    destruct (step_spec r (set_timers tl p) Hr (I_timers p tl HI))
      as (d1 & Ht1 & Hl1 & HI1).
    assert (Htl : timers (set_timers tl p) = tl) by now destruct p.
    assert (Hlog : log (set_timers tl p) = log p) by now destruct p.
    rewrite Htl in Ht1. rewrite Hlog in Hl1.
    destruct (IH _ tl d1 Hk HI1 Ht1 Hn) as (q & d' & Hrun & Htq & Hlq & HIq).
    exists q, d'. repeat split; auto.
    + intros tail. simpl. rewrite (fire_armed p tl d Ht Hn). apply Hrun.
    + rewrite Hlq, Hl1. simpl. rewrite rev_app_distr, app_assoc. reflexivity.
Qed.

(** The loop over replies that keep it going, up to the run on the
    first reply [last] after them: that run starts from a page [q] on
    which no timer for the arrow is pending. *)
Lemma polling_loop_keep (rs : list status_reply) (last : status_reply)
  (p : page) :
  forallb keeps rs = true -> I p -> take_timer cb (timers p) = None ->
  exists q,
    (forall tail,
        polling_loop cb arrow (rs ++ last :: tail) p
        = timer_runs cb arrow tail (exec (arrow last) q))
    /\ timers q = timers p
    /\ log q = rev (flat_map evs rs) ++ log p
    /\ I q.
Proof.
  intros Hk HI Hn. destruct rs as [|r rs].
  - exists p. repeat split; auto.
  - simpl in Hk. apply andb_true_iff in Hk as [Hr Hk].
    destruct (step_spec r p Hr HI) as (d1 & Ht1 & Hl1 & HI1).
    destruct (timer_runs_keep rs _ (timers p) d1 Hk HI1 Ht1 Hn)
      as (q & d' & Hrun & Htq & Hlq & HIq).
    exists (set_timers (timers p) q). split; [|split; [|split]].
    + intros tail. simpl. rewrite Hrun. simpl.
      now rewrite (fire_armed q (timers p) d' Htq Hn).
    + now destruct q.
    + replace (log (set_timers (timers p) q)) with (log q) by now destruct q.
      rewrite Hlq, Hl1. simpl. rewrite rev_app_distr, app_assoc. reflexivity.
    + now apply I_timers.
Qed.

End Polling.

(** Reading the log off a run. *)
Lemma events_since_log (before after : page) (l : list event) :
  log after = rev l ++ log before -> events_since before after = l.
Proof.
  intros H. unfold events_since. rewrite H, length_app.
  replace (List.length (rev l) + List.length (log before)
           - List.length (log before)) with (List.length (rev l)) by lia.
  rewrite firstn_app, Nat.sub_diag, firstn_all. simpl.
  now rewrite app_nil_r, rev_involutive.
Qed.

(** ** The single-download loop *)

Lemma checkProgress_keeps (p0 : page) (r : status_reply) (q : page) :
  keeps_polling (u "downloading") r = true ->
  job_state q = job_state p0 ->
  exists d,
    timers (exec (checkProgress r) q) = timers q ++ [(CheckProgress, d)]
    /\ log (exec (checkProgress r) q)
       = rev (step_events (u "Error checking progress:") CheckProgress 1000
                (currentDownloadId p0) r) ++ log q
    /\ job_state (exec (checkProgress r) q) = job_state p0.
Proof.
  intros Hk HJ.
  assert (Hid : currentDownloadId q = currentDownloadId p0)
    by (unfold job_state in HJ; congruence).
  destruct r as [s|m].
  - rewrite (checkProgress_downloading s q Hk). exists 1000.
    rewrite <- Hid, <- HJ. now destruct q.
  - rewrite (checkProgress_failed m q). exists 2000.
    rewrite <- Hid, <- HJ. now destruct q.
Qed.

Lemma job_state_timers (p0 p : page) (tl : list (callback * nat)) :
  job_state p = job_state p0 -> job_state (set_timers tl p) = job_state p0.
Proof. intros <-. now destruct p. Qed.



Lemma deliveries_app (l1 l2 : list event) :
  deliveries (l1 ++ l2) = deliveries l1 ++ deliveries l2.
Proof. apply flat_map_app. Qed.

Lemma status_requests_app (l1 l2 : list event) :
  status_requests (l1 ++ l2) = status_requests l1 ++ status_requests l2.
Proof. apply flat_map_app. Qed.








Lemma keeps_failures (tag : jsstring) (fs : list jsstring) :
  forallb (keeps_polling tag) (map StatusFailed fs) = true.
Proof. induction fs as [|m fs IH]; simpl; auto. Qed.



(** ** The batch loop *)

Lemma checkBatchProgress_keeps (batchId : option jsstring) (total : nat)
  (p0 : page) (r : status_reply) (q : page) :
  keeps_polling (u "processing") r = true ->
  batch_state q = batch_state p0 ->
  exists d,
    timers (exec (checkBatchProgress batchId total r) q)
    = timers q ++ [(CheckBatchProgress batchId total, d)]
    /\ log (exec (checkBatchProgress batchId total r) q)
       = rev (step_events (u "Error checking batch progress:")
                (CheckBatchProgress batchId total) 2000 batchId r) ++ log q
    /\ batch_state (exec (checkBatchProgress batchId total r) q)
       = batch_state p0.
Proof.
  intros Hk HJ. destruct r as [s|m].
  - rewrite (checkBatchProgress_processing batchId total s q Hk). exists 2000.
    rewrite <- HJ. now destruct q.
  - rewrite (checkBatchProgress_failed batchId total m q). exists 2000.
    rewrite <- HJ. now destruct q.
Qed.

Lemma batch_state_timers (p0 p : page) (tl : list (callback * nat)) :
  batch_state p = batch_state p0 -> batch_state (set_timers tl p) = batch_state p0.
Proof. intros <-. now destruct p. Qed.

(** A run of replies that keep the batch loop going, up to the run on
    the first reply after them. *)
Lemma monitorBatchProgress_keeps (batchId : option jsstring) (total : nat)
  (rs : list status_reply) (last : status_reply) (p : page) :
  forallb (keeps_polling (u "processing")) rs = true ->
  take_timer (CheckBatchProgress batchId total) (timers p) = None ->
  exists q,
    batch_state q = batch_state p
    /\ timers q = timers p
    /\ log q = rev (flat_map (step_events (u "Error checking batch progress:")
                                (CheckBatchProgress batchId total) 2000 batchId)
                      rs) ++ log p
    /\ forall rest,
        exec (monitorBatchProgress batchId total (rs ++ last :: rest)) p
        = timer_runs (CheckBatchProgress batchId total)
            (checkBatchProgress batchId total) rest
            (exec (checkBatchProgress batchId total last) q).
Proof.
  intros Hk Hn.
  destruct (polling_loop_keep (CheckBatchProgress batchId total)
              (checkBatchProgress batchId total)
              (keeps_polling (u "processing"))
              (step_events (u "Error checking batch progress:")
                 (CheckBatchProgress batchId total) 2000 batchId)
              (fun q => batch_state q = batch_state p)
              (batch_state_timers p) (checkBatchProgress_keeps batchId total p)
              rs last p Hk eq_refl Hn)
    as (q & Hrun & Htq & Hlq & HJ).
  exists q. repeat split; auto.
Qed.

Lemma monitorBatchProgress_finishes (batchId : option jsstring) (total : nat)
  (rs : list status_reply) (fin : JobStatus) (p : page) :
  forallb (keeps_polling (u "processing")) rs = true ->
  is_status fin (u "finished") = true ->
  take_timer (CheckBatchProgress batchId total) (timers p) = None ->
  exists q,
    batch_state q = batch_state p
    /\ timers q = timers p
    /\ log q = rev (flat_map (step_events (u "Error checking batch progress:")
                                (CheckBatchProgress batchId total) 2000 batchId)
                      rs) ++ log p
    /\ forall rest,
        exec (monitorBatchProgress batchId total (rs ++ StatusOk fin :: rest)) p
        = batch_finished_written batchId total fin q.
Proof.
  intros Hk Hfin Hn.
  destruct (monitorBatchProgress_keeps batchId total rs (StatusOk fin) p Hk Hn)
    as (q & HJ & Htq & Hlq & Hrun).
  exists q. repeat split; auto.
  intros rest. rewrite Hrun.
  rewrite (checkBatchProgress_finished batchId total fin q Hfin).
  apply timer_runs_idle.
  replace (timers (batch_finished_written batchId total fin q)) with (timers q)
    by now destruct q.
  now rewrite Htq.
Qed.

(** ** Failed requests leave the page alone *)












(** ** Statuses no branch handles *)

Lemma monitorDownloadProgress_first (r : status_reply)
  (rest : list status_reply) (p : page) :
  truthy (currentDownloadId p) = true ->
  exec (monitorDownloadProgress (r :: rest)) p
  = timer_runs CheckProgress checkProgress rest (exec (checkProgress r) p).
Proof.
  intros Hid.
  unfold monitorDownloadProgress, exec, bind, gets, modify.
  cbv beta iota. rewrite Hid. reflexivity.
Qed.

(** C3, against the code: the run on [pending] stops the loop. *)
Lemma pending_not_rescheduled :
  ~ delivered_and_rescheduled (status_with "pending") polling_page.
Proof.
  intros [_ H]. vm_compute in H.
  repeat (destruct H as [H|H]; [discriminate H|]). exact H.
Qed.

(** C3, amended.  When a status request of the single-download loop
    answers [pending], the status tests are reached but none of the
    three branches is taken: the page is left as it was, no timer is set
    and no further status request is made. *)
Theorem pending_stops_polling (s : JobStatus) (rest : list status_reply)
  (p : page) :
  is_status s (u "pending") = true ->
  truthy (currentDownloadId p) = true ->
  pending CheckProgress p = false ->
  let id := currentDownloadId p in
  let p' := exec (monitorDownloadProgress (StatusOk s :: rest)) p in
  p' = unhandled_written id s p
  /\ events_since p p' = stopped id s
  /\ deliveries (events_since p p') = [s]
  /\ timers p' = timers p
  /\ pending CheckProgress p' = false.
Proof.
  intros Hs Hid Hn id p'.
  assert (Hp' : p' = unhandled_written id s p).
  { subst p'. rewrite (monitorDownloadProgress_first _ rest p Hid).
    rewrite (checkProgress_unhandled s p);
      try (apply (is_status_other s _ _ Hs); reflexivity).
    apply timer_runs_idle.
    replace (timers (unhandled_written (currentDownloadId p) s p))
      with (timers p) by now destruct p.
    now apply not_pending. }
  assert (Hev : events_since p p' = stopped id s).
  { apply events_since_log. rewrite Hp'. now destruct p. }
  rewrite Hev. rewrite Hp'. repeat split; auto; try now destruct p.
  all: unfold pending in *; now destruct p.
Qed.

Lemma pending_stops_polling_witness :
  let s := status_with "pending" in
  let rest := [StatusOk (status_with "finished")] in
  let p := polling_page in
  let id := currentDownloadId p in
  let p' := exec (monitorDownloadProgress (StatusOk s :: rest)) p in
  p' = unhandled_written id s p
  /\ events_since p p' = stopped id s
  /\ deliveries (events_since p p') = [s]
  /\ timers p' = timers p
  /\ pending CheckProgress p' = false.
Proof.
  apply (pending_stops_polling (status_with "pending")
           [StatusOk (status_with "finished")] polling_page);
    vm_compute; reflexivity.
Defined.

(** ** The error status *)

(** C4, against the code: the identifier survives the error. *)
Lemma error_keeps_identifier :
  ~ error_discards_job (error_status "Video unavailable") polling_page.
Proof.
  intros (_ & H & _). vm_compute in H. discriminate H.
Qed.

(** C4, amended.  When the single-download loop reads the status
    [error], the message is shown in the error element, the download
    button is enabled again under its first label, and
    [currentDownloadId], the selected format and the metadata are all
    left as they were; no further run is scheduled. *)
Theorem error_shows_message (s : JobStatus) (p : page) :
  is_status s (u "error") = true ->
  let p' := exec (checkProgress (StatusOk s)) p in
  urlError_text p' = cross_mark ++ u " " ++ interpolate (error s)
  /\ urlError_display p' = DisplayBlock
  /\ downloadBtn_disabled p' = false
  /\ downloadBtn_label p' = label_download_now
  /\ currentDownloadId p' = currentDownloadId p
  /\ selectedFormat p' = selectedFormat p
  /\ currentVideoInfo p' = currentVideoInfo p
  /\ ~ In (SetTimeout CheckProgress 1000) (events_since p p')
  /\ ~ In (SetTimeout CheckProgress 2000) (events_since p p').
Proof.
  intros Hs p'. subst p'. rewrite (checkProgress_error s p Hs).
  assert (Hev : events_since p (error_written s p)
                = [Fetch (DownloadStatus (currentDownloadId p)); Delivered s;
                   SetTimeout HideError 5000]).
  { apply events_since_log. now destruct p. }
  rewrite Hev.
  repeat split; try now destruct p.
  - intros H. simpl in H. repeat (destruct H as [H|H]; [discriminate H|]). exact H.
  - intros H. simpl in H. repeat (destruct H as [H|H]; [discriminate H|]). exact H.
Qed.

Lemma error_shows_message_witness :
  let s := error_status "Video unavailable" in
  let p := polling_page in
  let p' := exec (checkProgress (StatusOk s)) p in
  urlError_text p' = cross_mark ++ u " " ++ interpolate (error s)
  /\ urlError_display p' = DisplayBlock
  /\ downloadBtn_disabled p' = false
  /\ downloadBtn_label p' = label_download_now
  /\ currentDownloadId p' = currentDownloadId p
  /\ selectedFormat p' = selectedFormat p
  /\ currentVideoInfo p' = currentVideoInfo p
  /\ ~ In (SetTimeout CheckProgress 1000) (events_since p p')
  /\ ~ In (SetTimeout CheckProgress 2000) (events_since p p').
Proof.
  apply (error_shows_message (error_status "Video unavailable") polling_page).
  vm_compute. reflexivity.
Defined.

(** C10.  In the batch loop, a status that is neither [processing] nor
    [finished] (for one, [error]) reaches the status tests and matches
    none: nothing on the page changes, the progress element and the
    error element stay as they were, no timer is set and no further
    status request is made. *)
Theorem batch_unhandled_halts (batchId : option jsstring) (total : nat)
  (s : JobStatus) (rest : list status_reply) (p : page) :
  is_status s (u "processing") = false ->
  is_status s (u "finished") = false ->
  pending (CheckBatchProgress batchId total) p = false ->
  let p' := exec (monitorBatchProgress batchId total (StatusOk s :: rest)) p in
  p' = unhandled_written batchId s p
  /\ events_since p p' = stopped batchId s
  /\ batchProgress p' = batchProgress p
  /\ urlError_text p' = urlError_text p
  /\ urlError_display p' = urlError_display p
  /\ timers p' = timers p
  /\ pending (CheckBatchProgress batchId total) p' = false.
Proof.
  intros H1 H2 Hn p'.
  assert (Hp' : p' = unhandled_written batchId s p).
  { subst p'. unfold monitorBatchProgress, exec, modify. cbv beta iota.
    unfold snd, checkBatchProgress_loop, polling_loop.
    fold (exec (checkBatchProgress batchId total (StatusOk s)) p).
    rewrite (checkBatchProgress_unhandled batchId total s p H1 H2).
    apply timer_runs_idle.
    replace (timers (unhandled_written batchId s p)) with (timers p)
      by now destruct p.
    now apply not_pending. }
  assert (Hev : events_since p p' = stopped batchId s).
  { apply events_since_log. rewrite Hp'. now destruct p. }
  rewrite Hev. rewrite Hp'. repeat split; try now destruct p.
  all: unfold pending in *; now destruct p.
Qed.

Lemma batch_unhandled_halts_witness :
  let batchId := Some (u "batch-1") in
  let s := error_status "boom" in
  let rest := [StatusOk (status_with "finished")] in
  let p := polling_page in
  let p' := exec (monitorBatchProgress batchId 3 (StatusOk s :: rest)) p in
  p' = unhandled_written batchId s p
  /\ events_since p p' = stopped batchId s
  /\ batchProgress p' = batchProgress p
  /\ urlError_text p' = urlError_text p
  /\ urlError_display p' = urlError_display p
  /\ timers p' = timers p
  /\ pending (CheckBatchProgress batchId 3) p' = false.
Proof.
  apply (batch_unhandled_halts (Some (u "batch-1")) 3 (error_status "boom")
           [StatusOk (status_with "finished")] polling_page);
    vm_compute; reflexivity.
Defined.

(** ** fetchVideoInfo *)

Lemma displayFormats_grid (fs : list Format) (p : page) :
  fold_left
    (fun q format => set_formatGrid (formatGrid q ++ [mkFormatItem format false]) q)
    fs p
  = set_formatGrid (formatGrid p ++ map unselected fs) p.
Proof.
  revert p. induction fs as [|f fs IH]; intros p; simpl.
  - rewrite app_nil_r. now destruct p.
  - rewrite IH. destruct p; simpl. now rewrite <- app_assoc.
Qed.

Lemma fetchVideoInfo_ok (d : VideoInfo) (p : page) :
  nonempty (trim (urlInput p)) = true ->
  exec (fetchVideoInfo (InfoOk d)) p = info_written d p.
Proof.
  intros H.
  unfold fetchVideoInfo, exec, bind, gets. cbv beta iota. rewrite H.
  unfold try_finally, try_catch, displayVideoInfo, displayFormats, bind, emit,
    modify, ret.
  cbv beta iota zeta delta [negb snd]. rewrite displayFormats_grid.
  now destruct p.
Qed.

(** C5, against the code: the format chosen from the earlier result is
    still the selected one, though the new result does not offer it. *)
Lemma selection_survives_fetch :
  ~ fetch_clears_selection other_info polling_page.
Proof.
  intros (_ & _ & H). vm_compute in H. discriminate H.
Qed.

(** C5, amended.  A successful metadata fetch (the URL field holding
    more than blanks) replaces [currentVideoInfo] by the returned data
    and rebuilds the format grid from the returned formats, none of them
    marked selected; [selectedFormat] is not written. *)
Theorem fetch_replaces_metadata (d : VideoInfo) (p : page) :
  nonempty (trim (urlInput p)) = true ->
  let p' := exec (fetchVideoInfo (InfoOk d)) p in
  currentVideoInfo p' = Some d
  /\ formatGrid p' = map unselected (formats d)
  /\ map item_format (formatGrid p') = formats d
  /\ forallb (fun it => negb (selected it)) (formatGrid p') = true
  /\ videoTitle p' = title d
  /\ selectedFormat p' = selectedFormat p.
Proof.
  intros H p'. subst p'. rewrite (fetchVideoInfo_ok d p H).
  replace (formatGrid (info_written d p)) with (map unselected (formats d))
    by now destruct p.
  repeat split; try now destruct p.
  - rewrite map_map. simpl. apply map_id.
  - induction (formats d); simpl; auto.
Qed.

Lemma fetch_replaces_metadata_witness :
  let d := other_info in
  let p := polling_page in
  let p' := exec (fetchVideoInfo (InfoOk d)) p in
  currentVideoInfo p' = Some d
  /\ formatGrid p' = map unselected (formats d)
  /\ map item_format (formatGrid p') = formats d
  /\ forallb (fun it => negb (selected it)) (formatGrid p') = true
  /\ videoTitle p' = title d
  /\ selectedFormat p' = selectedFormat p.
Proof.
  apply (fetch_replaces_metadata other_info polling_page).
  vm_compute. reflexivity.
Defined.

(** ** startDownload *)

Lemma startDownload_unready (reply : start_reply) (polls : list status_reply)
  (p : page) :
  selectedFormat p = None \/ currentVideoInfo p = None ->
  exec (startDownload reply polls) p
  = error_shown (u "Please select a format first") [] p.
Proof.
  intros H.
  assert (Hg : negb (is_some (selectedFormat p))
               || negb (is_some (currentVideoInfo p)) = true).
  { destruct H as [-> | ->]; simpl; auto using orb_true_r. }
  unfold startDownload, exec, bind, gets. cbv beta iota. rewrite Hg.
  unfold showError, setTimeout, emit, bind, modify. cbv beta iota.
  now destruct p.
Qed.

(** C6.  [startDownload] called while no format is selected or no
    metadata is present makes no request at all and shows the message
    asking for a format; hence a job-creation request is only ever made
    from a page where both are present. *)
Theorem startDownload_needs_selection (reply : start_reply)
  (polls : list status_reply) (p : page) :
  let p' := exec (startDownload reply polls) p in
  (selectedFormat p = None \/ currentVideoInfo p = None ->
   events_since p p' = [SetTimeout HideError 5000]
   /\ requests (events_since p p') = []
   /\ urlError_text p' = cross_mark ++ u " Please select a format first"
   /\ urlError_display p' = DisplayBlock
   /\ currentDownloadId p' = currentDownloadId p)
  /\ (forall url fid ttl,
         In (Fetch (StartDownload url fid ttl)) (events_since p p') ->
         exists f v, selectedFormat p = Some f /\ currentVideoInfo p = Some v).
Proof.
  intros p'.
  assert (Hno : selectedFormat p = None \/ currentVideoInfo p = None ->
                events_since p p' = [SetTimeout HideError 5000]).
  { intros H. apply events_since_log. subst p'.
    rewrite (startDownload_unready reply polls p H). now destruct p. }
  split.
  - intros H. rewrite (Hno H). subst p'.
    rewrite (startDownload_unready reply polls p H).
    repeat split; now destruct p.
  - intros url fid ttl Hin.
    destruct (selectedFormat p) as [f|] eqn:Ef;
      [destruct (currentVideoInfo p) as [v|] eqn:Ev|].
    + now exists f, v.
    + rewrite (Hno (or_intror eq_refl)) in Hin.
      destruct Hin as [Hin|[]]; discriminate Hin.
    + rewrite (Hno (or_introl eq_refl)) in Hin.
      destruct Hin as [Hin|[]]; discriminate Hin.
Qed.

Lemma startDownload_needs_selection_witness :
  let p := exec constructor empty_page in
  let p' := exec (startDownload (StartOk (Some (u "job-1"))) []) p in
  events_since p p' = [SetTimeout HideError 5000]
  /\ requests (events_since p p') = []
  /\ urlError_text p' = cross_mark ++ u " Please select a format first"
  /\ urlError_display p' = DisplayBlock
  /\ currentDownloadId p' = currentDownloadId p.
Proof.
  apply (startDownload_needs_selection (StartOk (Some (u "job-1"))) []
           (exec constructor empty_page)).
  left. reflexivity.
Defined.

(** ** downloadFile *)

Lemma downloadFile_ok (v : VideoInfo) (f : Format) (p : page) :
  truthy (currentDownloadId p) = true ->
  currentVideoInfo p = Some v ->
  selectedFormat p = Some f ->
  exec (downloadFile FileOk) p = file_saved v f p.
Proof.
  intros Hid Hv Hf.
  destruct p as [[[|c i]|] ? ?]; simpl in Hid, Hv, Hf; try discriminate Hid.
  subst. vm_compute. reflexivity.
Qed.

Lemma downloadFile_failed (reply : file_reply) (p : page) :
  truthy (currentDownloadId p) = true ->
  reply <> FileOk ->
  exec (downloadFile reply) p
  = error_shown (file_error reply)
      [Fetch (DownloadFile (currentDownloadId p))] p.
Proof.
  intros Hid Hr.
  unfold downloadFile, exec, bind, gets. cbv beta iota. rewrite Hid.
  unfold try_catch, bind, emit, modify, throw, showError, setTimeout.
  destruct reply as [| |m]; [congruence| |]; cbv beta iota; now destruct p.
Qed.

(** C7.  [downloadFile] on a page holding a job identifier: when the
    artifact is retrieved, the file is saved under the title of the
    current metadata followed by a dot and the extension of the selected
    format, then [currentDownloadId] is dropped, the progress bar is set
    to 0% and the progress section and the button are hidden; when the
    retrieval fails, the error is shown, nothing is saved and
    [currentDownloadId] is left as it was. *)
Theorem downloadFile_saves_or_keeps (v : VideoInfo) (f : Format) (p : page) :
  truthy (currentDownloadId p) = true ->
  currentVideoInfo p = Some v ->
  selectedFormat p = Some f ->
  (let p' := exec (downloadFile FileOk) p in
   events_since p p'
   = [Fetch (DownloadFile (currentDownloadId p));
      SaveAs (title v ++ u "." ++ ext f)]
   /\ currentDownloadId p' = None
   /\ progressFill p' = WidthLiteral (u "0%")
   /\ progressSection p' = DisplayNone
   /\ downloadBtn_display p' = DisplayNone)
  /\ (forall reply, reply <> FileOk ->
      let p' := exec (downloadFile reply) p in
      events_since p p'
      = [Fetch (DownloadFile (currentDownloadId p)); SetTimeout HideError 5000]
      /\ urlError_text p' = cross_mark ++ u " " ++ file_error reply
      /\ urlError_display p' = DisplayBlock
      /\ currentDownloadId p' = currentDownloadId p
      /\ progressFill p' = progressFill p).
Proof.
  intros Hid Hv Hf. split.
  - intros p'. subst p'. rewrite (downloadFile_ok v f p Hid Hv Hf).
    split; [apply events_since_log|]; repeat split; now destruct p.
  - intros reply Hr p'. subst p'. rewrite (downloadFile_failed reply p Hid Hr).
    split; [apply events_since_log|]; repeat split; now destruct p.
Qed.

Lemma downloadFile_saves_or_keeps_witness :
  let p := polling_page in
  (let p' := exec (downloadFile FileOk) p in
   events_since p p'
   = [Fetch (DownloadFile (currentDownloadId p));
      SaveAs (title sample_info ++ u "." ++ ext mp3_audio)]
   /\ currentDownloadId p' = None
   /\ progressFill p' = WidthLiteral (u "0%")
   /\ progressSection p' = DisplayNone
   /\ downloadBtn_display p' = DisplayNone)
  /\ (forall reply, reply <> FileOk ->
      let p' := exec (downloadFile reply) p in
      events_since p p'
      = [Fetch (DownloadFile (currentDownloadId p)); SetTimeout HideError 5000]
      /\ urlError_text p' = cross_mark ++ u " " ++ file_error reply
      /\ urlError_display p' = DisplayBlock
      /\ currentDownloadId p' = currentDownloadId p
      /\ progressFill p' = progressFill p).
Proof.
  apply (downloadFile_saves_or_keeps sample_info mp3_audio polling_page);
    vm_compute; reflexivity.
Defined.

(** ** trim *)

Lemma trim_start_head (s : jsstring) :
  match trim_start s with
  | [] => True
  | c :: _ => is_space c = false
  end.
Proof.
  induction s as [|c r IH]; simpl; [exact I|].
  destruct (is_space c) eqn:E; [exact IH|exact E].
Qed.

Lemma trim_start_fixed (s : jsstring) :
  match s with [] => True | c :: _ => is_space c = false end ->
  trim_start s = s.
Proof. destruct s as [|c r]; simpl; [reflexivity|]. now intros ->. Qed.

Lemma trim_start_idem (s : jsstring) : trim_start (trim_start s) = trim_start s.
Proof. apply trim_start_fixed, trim_start_head. Qed.

Lemma trim_start_snoc (s : jsstring) (c : N) :
  is_space c = false -> trim_start (s ++ [c]) = trim_start s ++ [c].
Proof.
  intros Hc. induction s as [|x r IH]; simpl.
  - now rewrite Hc.
  - destruct (is_space x); [exact IH|reflexivity].
Qed.

Lemma trim_end_cons (c : N) (s : jsstring) :
  is_space c = false -> trim_end (c :: s) = c :: trim_end s.
Proof.
  intros Hc. unfold trim_end. simpl.
  rewrite (trim_start_snoc (rev s) c Hc), rev_app_distr. reflexivity.
Qed.

Lemma trim_end_idem (s : jsstring) : trim_end (trim_end s) = trim_end s.
Proof. unfold trim_end. now rewrite rev_involutive, trim_start_idem. Qed.

Lemma trim_trimmed (s : jsstring) : trimmed (trim s).
Proof.
  unfold trimmed, trim. split; [|apply trim_end_idem].
  pose proof (trim_start_head s) as H.
  destruct (trim_start s) as [|c r]; [reflexivity|].
  rewrite (trim_end_cons c r H). simpl. now rewrite H.
Qed.

Lemma trimmed_trim (s : jsstring) : trimmed s -> trim s = s.
Proof. intros [H1 H2]. unfold trim. now rewrite H1. Qed.



Lemma existsb_trim_start (f : N -> bool) (s : jsstring) :
  existsb f s = false -> existsb f (trim_start s) = false.
Proof.
  induction s as [|c r IH]; simpl; [reflexivity|].
  intros H. apply orb_false_iff in H as [Hc Hr].
  destruct (is_space c); [now apply IH|]. simpl. now rewrite Hc, Hr.
Qed.

Lemma existsb_rev_false (f : N -> bool) (s : jsstring) :
  existsb f s = false -> existsb f (rev s) = false.
Proof.
  induction s as [|c r IH]; simpl; [reflexivity|].
  intros H. apply orb_false_iff in H as [Hc Hr].
  rewrite existsb_app, (IH Hr). simpl. now rewrite Hc.
Qed.

Lemma existsb_trim (f : N -> bool) (s : jsstring) :
  existsb f s = false -> existsb f (trim s) = false.
Proof.
  intros H. unfold trim, trim_end.
  now apply existsb_rev_false, existsb_trim_start, existsb_rev_false,
    existsb_trim_start.
Qed.

(** ** replace on plain text *)


(** ** What is stored, and what comes back *)

(** The format and the time of a stored record are trimmed and hold no
    bullet, whatever the item they were read from. *)
Lemma record_of_fields (it : history_item) :
  trimmed (h_format (record_of it)) /\ no_bullet (h_format (record_of it)) = true
  /\ trimmed (h_time (record_of it)) /\ no_bullet (h_time (record_of it)) = true.
Proof.
  unfold record_of, no_bullet. simpl.
  pose proof (split_pieces bullet (span1 it)) as Hp.
  pose proof (split_not_nil bullet (span1 it)) as Hn.
  destruct (split bullet (span1 it)) as [|a [|b l]]; [congruence| |];
    simpl; repeat split; try apply trim_trimmed;
    try (apply negb_true_iff, existsb_trim); try reflexivity.
  - now inversion Hp.
  - now inversion Hp.
  - inversion Hp as [|? ? _ Hp']. now inversion Hp'.
Qed.


(** ** The list of the page through appends *)



Lemma record_of_item_page (it : history_item) (p : page) :
  snd (record_of_item it p) = p.
Proof.
  unfold record_of_item, bind, property.
  now destruct (nth_error (split bullet (span1 it)) 1).
Qed.

Lemma map_js_page (l : list history_item) (p : page) :
  snd (map_js record_of_item l p) = p.
Proof.
  induction l as [|it l IH]; simpl; [reflexivity|].
  unfold bind. pose proof (record_of_item_page it p) as H.
  destruct (record_of_item it p) as [[r|e] q]; simpl in H; subst q;
    [|reflexivity].
  destruct (map_js record_of_item l p) as [[bs|e] q]; simpl in IH; now subst q.
Qed.

Lemma saveDownloadHistory_list (p : page) :
  historyList (exec saveDownloadHistory p) = historyList p.
Proof.
  unfold saveDownloadHistory, exec, bind, gets, modify. cbv beta iota.
  pose proof (map_js_page (historyList p) p) as H.
  destruct (map_js record_of_item (historyList p) p) as [[bs|e] q];
    simpl in *; subst; now destruct p.
Qed.

Lemma append_saves (e : history_record) (p : page) :
  append e p
  = exec saveDownloadHistory
      (set_historyList (capped (markup_of e :: historyList p))
         (set_clock (h_time e) p)).
Proof.
  unfold append, exec. rewrite addToDownloadHistory_saves.
  now destruct p.
Qed.

Lemma append_list (e : history_record) (p : page) :
  historyList (append e p) = capped (markup_of e :: historyList p).
Proof.
  rewrite append_saves, saveDownloadHistory_list. now destruct p.
Qed.




Lemma markups_have_bullets (es : list history_record) :
  forallb has_bullet (map markup_of es) = true.
Proof.
  induction es as [|e es IH]; simpl; [reflexivity|].
  unfold markup_of at 1. now rewrite markup_has_bullet.
Qed.

(** After an append that leaves only items the script built, the
    storage holds what is read off the list. *)
Lemma append_stored (e : history_record) (p : page) :
  forallb has_bullet (capped (markup_of e :: historyList p)) = true ->
  downloadHistory (append e p)
  = Some (map record_of (capped (markup_of e :: historyList p))).
Proof.
  intros H. rewrite append_saves. unfold exec.
  rewrite saveDownloadHistory_ok; now destruct p.
Qed.

Lemma append_all_snoc (es : list history_record) (e : history_record)
  (p : page) :
  append_all (es ++ [e]) p = append e (append_all es p).
Proof. unfold append_all. now rewrite fold_left_app. Qed.

Lemma loadDownloadHistory_list (history : list history_record) (p : page) :
  fold_left
    (fun q item =>
       set_historyList
         (historyList q
          ++ [history_markup (h_title item) (h_format item) (h_time item)]) q)
    history p
  = set_historyList (historyList p ++ map markup_of history) p.
Proof.
  revert p. induction history as [|e h IH]; intros p; simpl.
  - rewrite app_nil_r. now destruct p.
  - rewrite IH. destruct p; simpl. now rewrite <- app_assoc.
Qed.

Lemma reload_list (stored : list history_record) :
  historyList (reload (Some stored)) = map markup_of stored.
Proof.
  unfold reload, constructor, loadDownloadHistory, exec, bind, gets, modify.
  cbv beta iota. unfold snd.
  change (downloadHistory
            (set_currentVideoInfo None
               (set_currentDownloadId None
                  (set_downloadHistory (Some stored) empty_page))))
    with (Some stored).
  cbv beta iota. rewrite loadDownloadHistory_list. reflexivity.
Qed.



Lemma markup_shown (e : history_record) : markup_of e = shown e.
Proof. reflexivity. Qed.










(** ** The batch percentage *)

Lemma agree_upto_39 : agree_upto 39 = true.
Proof. vm_compute. reflexivity. Qed.

Lemma agrees_small (c t : nat) :
  0 < t <= 39 -> c <= t -> agrees c t = true.
Proof.
  intros Ht Hc. pose proof agree_upto_39 as H. unfold agree_upto in H.
  rewrite forallb_forall in H.
  assert (Hin : In t (seq 1 39)) by (apply in_seq; lia).
  specialize (H t Hin). rewrite forallb_forall in H.
  apply H. apply in_seq. lia.
Qed.

(** C9, against the code: 23 of 40 is 57.5 percent, which rounds to 58;
    the product computed in binary64 falls just under 57.5 and is
    rounded to 57. *)
Lemma percentage_23_of_40 : ~ percentage_is_exact 23 40.
Proof.
  unfold percentage_is_exact. vm_compute. discriminate.
Qed.

(** C9, amended.  For a batch of at most 39 URLs, every [processing]
    status with completed count [c <= t] renders the percentage
    [round(c/t*100)] (the larger integer at a tie); for completed=3 and
    total=7 the percentage is 43; a missing completed field counts as
    0. *)
Theorem batch_percentage_small_totals (batchId : option jsstring)
  (s : JobStatus) (total : nat) (p : page) :
  is_status s (u "processing") = true ->
  0 < total <= 39 ->
  (completed_or_0 s <= N.of_nat total)%N ->
  let c := completed_or_0 s in
  let p' := exec (checkBatchProgress batchId total (StatusOk s)) p in
  batchProgress p'
  = BatchBar c total
      (RoundInt (exact_percentage (Z.of_N c) (Z.of_nat total)))
  /\ (completed s = None -> batchProgress p' = BatchBar 0 total (RoundInt 0))
  /\ batch_percentage 3 7 = RoundInt 43.
Proof.
  intros Hs Ht Hc c p'.
  assert (Hview : batchProgress p'
                  = BatchBar c total (batch_percentage c total)).
  { subst p'. rewrite (checkBatchProgress_processing batchId total s p Hs).
    now destruct p. }
  assert (Hpct : batch_percentage c total
                 = RoundInt (exact_percentage (Z.of_N c) (Z.of_nat total))).
  { assert (Hcn : N.to_nat c <= total) by (subst c; lia).
    pose proof (agrees_small (N.to_nat c) total Ht Hcn) as H.
    unfold agrees in H. rewrite N2Nat.id, N_nat_Z in H.
    destruct (batch_percentage c total) as [| |z]; try discriminate H.
    f_equal. now apply Z.eqb_eq. }
  split; [now rewrite Hview, Hpct|]. split; [|vm_compute; reflexivity].
  intros Hnone. rewrite Hview, Hpct. subst c.
  unfold completed_or_0. rewrite Hnone. simpl Z.of_N.
  unfold exact_percentage. do 2 f_equal.
  apply Z.div_small. lia.
Qed.

Lemma batch_percentage_small_totals_witness :
  let s := processing_status (Some 3%N) in
  let p := polling_page in
  let c := completed_or_0 s in
  let p' := exec (checkBatchProgress (Some (u "batch-1")) 7 (StatusOk s)) p in
  batchProgress p'
  = BatchBar c 7 (RoundInt (exact_percentage (Z.of_N c) (Z.of_nat 7)))
  /\ (completed s = None -> batchProgress p' = BatchBar 0 7 (RoundInt 0))
  /\ batch_percentage 3 7 = RoundInt 43.
Proof.
  apply (batch_percentage_small_totals (Some (u "batch-1"))
           (processing_status (Some 3%N)) 7 polling_page).
  - vm_compute. reflexivity.
  - lia.
  - vm_compute. discriminate.
Defined.

(** ** Choosing a format *)

Lemma nth_error_middle {A} (l : list A) (i : nat) (a : A) :
  nth_error l i = Some a ->
  l = firstn i l ++ a :: skipn (S i) l /\ List.length (firstn i l) = i.
Proof.
  revert i. induction l as [|x l IH]; intros [|i]; simpl; try discriminate.
  - intros H. injection H as ->. now split.
  - intros H. destruct (IH i H) as [Hl Hn]. split; [now f_equal|now f_equal].
Qed.

Lemma clickFormat_in_range (i : nat) (it : format_item) (p : page) :
  nth_error (formatGrid p) i = Some it ->
  exec (clickFormat i) p
  = set_downloadBtn_display DisplayBlock
      (set_progressSection DisplayBlock
         (set_selectedFormat (Some (item_format it))
            (set_formatGrid
               (map (fun x => unselected (item_format x)) (firstn i (formatGrid p))
                ++ mkFormatItem (item_format it) true
                :: map (fun x => unselected (item_format x))
                     (skipn (S i) (formatGrid p))) p))).
Proof.
  intros H. unfold clickFormat, exec, bind, gets, modify. cbv beta iota.
  rewrite H. cbv beta iota. unfold snd.
  replace (formatGrid
             (set_formatGrid
                (map (fun it0 => mkFormatItem (item_format it0) false)
                   (formatGrid p)) p))
    with (map (fun x => unselected (item_format x)) (formatGrid p))
    by now destruct p.
  rewrite firstn_map, skipn_map. now destruct p.
Qed.

Lemma selected_count_unselected (l : list format_item) :
  selected_count (map (fun x => unselected (item_format x)) l) = 0.
Proof. induction l as [|x l IH]; simpl; auto. Qed.

Lemma selected_count_app (l1 l2 : list format_item) :
  selected_count (l1 ++ l2) = selected_count l1 + selected_count l2.
Proof. unfold selected_count. now rewrite filter_app, length_app. Qed.

Lemma clickFormat_selected (i : nat) (it : format_item) (p : page) :
  nth_error (formatGrid p) i = Some it ->
  let p' := exec (clickFormat i) p in
  selected_count (formatGrid p') = 1
  /\ option_map selected (nth_error (formatGrid p') i) = Some true
  /\ map item_format (formatGrid p') = map item_format (formatGrid p)
  /\ selectedFormat p' = Some (item_format it).
Proof.
  intros H p'. subst p'. rewrite (clickFormat_in_range i it p H).
  destruct (nth_error_middle (formatGrid p) i it H) as [Hsplit Hlen].
  set (before := firstn i (formatGrid p)) in *.
  set (after := skipn (S i) (formatGrid p)) in *.
  replace (formatGrid (set_downloadBtn_display _ _))
    with (map (fun x => unselected (item_format x)) before
          ++ mkFormatItem (item_format it) true
          :: map (fun x => unselected (item_format x)) after)
    by now destruct p.
  repeat split; try now destruct p.
  - rewrite selected_count_app, selected_count_unselected.
    change (selected_count (?x :: ?l)) with (S (selected_count l)).
    now rewrite selected_count_unselected.
  - rewrite nth_error_app2 by (rewrite length_map; lia).
    rewrite length_map, Hlen, Nat.sub_diag. reflexivity.
  - rewrite Hsplit at 1. rewrite !map_app, !map_map. simpl.
    rewrite !map_map. reflexivity.
Qed.

(** X1.  A click on a grid item leaves exactly one item selected, the
    clicked one, whatever was selected before; the formats of the grid
    are not touched, [selectedFormat] is the format of the clicked item
    and the download controls are shown. *)
Theorem click_selects_exactly_one (i : nat) (it : format_item) (p : page) :
  nth_error (formatGrid p) i = Some it ->
  let p' := exec (clickFormat i) p in
  selected_count (formatGrid p') = 1
  /\ option_map selected (nth_error (formatGrid p') i) = Some true
  /\ map item_format (formatGrid p') = map item_format (formatGrid p)
  /\ selectedFormat p' = Some (item_format it)
  /\ progressSection p' = DisplayBlock
  /\ downloadBtn_display p' = DisplayBlock.
Proof.
  intros H p'.
  destruct (clickFormat_selected i it p H) as (H1 & H2 & H3 & H4).
  repeat split; auto; subst p'; rewrite (clickFormat_in_range i it p H);
    now destruct p.
Qed.

Lemma click_selects_exactly_one_witness :
  let p := polling_page in
  let p' := exec (clickFormat 0) p in
  selected_count (formatGrid p') = 1
  /\ option_map selected (nth_error (formatGrid p') 0) = Some true
  /\ map item_format (formatGrid p') = map item_format (formatGrid p)
  /\ selectedFormat p' = Some (item_format (unselected mp4_720))
  /\ progressSection p' = DisplayBlock
  /\ downloadBtn_display p' = DisplayBlock.
Proof.
  apply (click_selects_exactly_one 0 (unselected mp4_720) polling_page).
  vm_compute. reflexivity.
Defined.

(** X2.  After any non-empty series of clicks on items of the grid,
    exactly one item is selected: the one clicked last, and it is the
    stored selection. *)
Theorem clicks_keep_one_selection (clicks : list nat) (last : nat) (p : page) :
  Forall (fun i => i < List.length (formatGrid p)) (clicks ++ [last]) ->
  let p' := click_all (clicks ++ [last]) p in
  selected_count (formatGrid p') = 1
  /\ option_map selected (nth_error (formatGrid p') last) = Some true
  /\ selectedFormat p'
     = option_map item_format (nth_error (formatGrid p) last)
  /\ map item_format (formatGrid p') = map item_format (formatGrid p).
Proof.
  intros Hr p'.
  assert (Hpre : map item_format (formatGrid (click_all clicks p))
                 = map item_format (formatGrid p)).
  { apply Forall_app in Hr as [Hr _]. clear p'. revert p Hr.
    induction clicks as [|i clicks IH]; intros p Hr; [reflexivity|].
    inversion Hr as [|? ? Hi Hr']; subst.
    destruct (nth_error (formatGrid p) i) as [it|] eqn:E;
      [|apply nth_error_None in E; lia].
    destruct (clickFormat_selected i it p E) as (_ & _ & Hm & _).
    simpl. rewrite IH; [exact Hm|].
    rewrite <- (length_map item_format), Hm, length_map. exact Hr'. }
  apply Forall_app in Hr as [_ Hl]. inversion Hl as [|? ? Hlast _]; subst.
  subst p'. unfold click_all in *. rewrite fold_left_app. simpl.
  set (q := fold_left (fun q i => exec (clickFormat i) q) clicks p) in *.
  assert (Hq : last < List.length (formatGrid q))
    by (rewrite <- (length_map item_format), Hpre, length_map; exact Hlast).
  destruct (nth_error (formatGrid q) last) as [it|] eqn:E;
    [|apply nth_error_None in E; lia].
  destruct (clickFormat_selected last it q E) as (H1 & H2 & H3 & H4).
  repeat split; auto.
  - rewrite H4. rewrite <- (nth_error_map item_format), <- Hpre,
      nth_error_map, E. reflexivity.
  - now rewrite H3.
Qed.

Lemma clicks_keep_one_selection_witness :
  let p := polling_page in
  let p' := click_all ([1; 0; 1] ++ [0]) p in
  selected_count (formatGrid p') = 1
  /\ option_map selected (nth_error (formatGrid p') 0) = Some true
  /\ selectedFormat p'
     = option_map item_format (nth_error (formatGrid p) 0)
  /\ map item_format (formatGrid p') = map item_format (formatGrid p).
Proof.
  apply (clicks_keep_one_selection [1; 0; 1] 0 polling_page).
  vm_compute. repeat constructor.
Defined.

(** ** fetchVideoInfo: nothing to fetch, and failures *)

(** X3.  With a URL field holding only blanks, [fetchVideoInfo] does
    nothing at all: no request, no change on the page. *)
Theorem fetchVideoInfo_blank_url (reply : info_reply) (p : page) :
  nonempty (trim (urlInput p)) = false ->
  exec (fetchVideoInfo reply) p = p.
Proof.
  intros H. unfold fetchVideoInfo, exec, bind, gets. cbv beta iota.
  now rewrite H.
Qed.

Lemma fetchVideoInfo_blank_url_witness :
  exec (fetchVideoInfo (InfoOk sample_info)) (set_urlInput (u "  ") polling_page)
  = set_urlInput (u "  ") polling_page.
Proof.
  apply (fetchVideoInfo_blank_url (InfoOk sample_info)
           (set_urlInput (u "  ") polling_page)).
  vm_compute. reflexivity.
Defined.

Lemma fetchVideoInfo_not_ok (reply : info_reply) (p : page) :
  nonempty (trim (urlInput p)) = true ->
  info_ok reply = false ->
  exec (fetchVideoInfo reply) p
  = set_formatLoading DisplayNone
      (error_shown (info_error reply) [Fetch (GetInfo (trim (urlInput p)))]
         (set_formatSection DisplayNone p)).
Proof.
  intros H Hr.
  unfold fetchVideoInfo, exec, bind, gets. cbv beta iota. rewrite H.
  unfold try_finally, try_catch, bind, emit, modify, throw, showError,
    setTimeout.
  destruct reply as [d|e|m]; [discriminate Hr| |]; cbv beta iota;
    now destruct p.
Qed.

(** X4.  When the metadata request is rejected or fails, the message of
    the backend (or, if it gave none, a fixed fallback; for a failed
    request the engine's message) is shown, the loading indicator is
    hidden again, and metadata, grid and selection are left as they
    were; the format section, hidden when the request went out, stays
    hidden. *)
Theorem fetchVideoInfo_failure (reply : info_reply) (p : page) :
  nonempty (trim (urlInput p)) = true ->
  info_ok reply = false ->
  let p' := exec (fetchVideoInfo reply) p in
  events_since p p'
  = [Fetch (GetInfo (trim (urlInput p))); SetTimeout HideError 5000]
  /\ urlError_text p' = cross_mark ++ u " " ++ info_error reply
  /\ urlError_display p' = DisplayBlock
  /\ formatLoading p' = DisplayNone
  /\ formatSection p' = DisplayNone
  /\ currentVideoInfo p' = currentVideoInfo p
  /\ formatGrid p' = formatGrid p
  /\ selectedFormat p' = selectedFormat p
  /\ (reply = InfoRejected None ->
      info_error reply = u "Failed to fetch video info").
Proof.
  intros H Hr p'. subst p'. rewrite (fetchVideoInfo_not_ok reply p H Hr).
  split; [apply events_since_log|]; repeat split; try now destruct p.
  now intros ->.
Qed.

Lemma fetchVideoInfo_failure_witness :
  let reply := InfoRejected (Some (u "Unsupported URL")) in
  let p := polling_page in
  let p' := exec (fetchVideoInfo reply) p in
  events_since p p'
  = [Fetch (GetInfo (trim (urlInput p))); SetTimeout HideError 5000]
  /\ urlError_text p' = cross_mark ++ u " " ++ info_error reply
  /\ urlError_display p' = DisplayBlock
  /\ formatLoading p' = DisplayNone
  /\ formatSection p' = DisplayNone
  /\ currentVideoInfo p' = currentVideoInfo p
  /\ formatGrid p' = formatGrid p
  /\ selectedFormat p' = selectedFormat p
  /\ (reply = InfoRejected None ->
      info_error reply = u "Failed to fetch video info").
Proof.
  apply (fetchVideoInfo_failure (InfoRejected (Some (u "Unsupported URL")))
           polling_page); vm_compute; reflexivity.
Defined.

(** ** startDownload: the request and its outcomes *)

Lemma monitorDownloadProgress_returns (polls : list status_reply) (p : page) :
  monitorDownloadProgress polls p
  = (Normal tt, exec (monitorDownloadProgress polls) p).
Proof.
  unfold monitorDownloadProgress, exec, bind, gets, modify, ret.
  cbv beta iota. now destruct (negb (truthy (currentDownloadId p))).
Qed.

Lemma startDownload_accepted (id : option jsstring)
  (polls : list status_reply) (v : VideoInfo) (f : Format) (p : page) :
  selectedFormat p = Some f ->
  currentVideoInfo p = Some v ->
  startDownload (StartOk id) polls p
  = try_catch (monitorDownloadProgress polls)
      (fun message =>
         showError (Some message) ;;
         modify (set_downloadBtn_disabled false) ;;
         modify (set_downloadBtn_label label_download_now))
      (started id v f p).
Proof.
  intros Hf Hv. unfold startDownload.
  generalize (monitorDownloadProgress polls). intros K.
  destruct p; simpl in Hf, Hv; subst. vm_compute. reflexivity.
Qed.

Lemma startDownload_ready (reply : start_reply) (polls : list status_reply)
  (v : VideoInfo) (f : Format) (p : page) :
  selectedFormat p = Some f ->
  currentVideoInfo p = Some v ->
  exec (startDownload reply polls) p
  = match reply with
    | StartOk id =>
        exec (monitorDownloadProgress polls) (started id v f p)
    | _ =>
        set_downloadBtn_label label_download_now
          (set_downloadBtn_disabled false
             (error_shown (start_error reply)
                [Fetch (StartDownload (trim (urlInput p)) (format_id f) (title v))]
                (set_downloadBtn_label label_starting
                   (set_downloadBtn_disabled true p))))
    end.
Proof.
  intros Hf Hv. destruct reply as [id|e|m].
  - unfold exec at 1. rewrite (startDownload_accepted id polls v f p Hf Hv).
    unfold try_catch. now rewrite monitorDownloadProgress_returns.
  - unfold startDownload. generalize (monitorDownloadProgress polls). intros K.
    destruct p; simpl in Hf, Hv; subst. vm_compute. reflexivity.
  - unfold startDownload. generalize (monitorDownloadProgress polls). intros K.
    destruct p; simpl in Hf, Hv; subst. vm_compute. reflexivity.
Qed.

(** X5.  When the backend rejects the job (or the request fails), one
    job-creation request has been made, with the trimmed URL, the
    identifier of the selected format and the title of the metadata; the
    message (or the fallback) is shown, the button is enabled again
    under its first label, no status request follows and
    [currentDownloadId] is left as it was. *)
Theorem startDownload_rejected (reply : start_reply)
  (polls : list status_reply) (v : VideoInfo) (f : Format) (p : page) :
  selectedFormat p = Some f ->
  currentVideoInfo p = Some v ->
  start_ok reply = false ->
  let p' := exec (startDownload reply polls) p in
  events_since p p'
  = [Fetch (StartDownload (trim (urlInput p)) (format_id f) (title v));
     SetTimeout HideError 5000]
  /\ urlError_text p' = cross_mark ++ u " " ++ start_error reply
  /\ urlError_display p' = DisplayBlock
  /\ downloadBtn_disabled p' = false
  /\ downloadBtn_label p' = label_download_now
  /\ currentDownloadId p' = currentDownloadId p
  /\ (reply = StartRejected None -> start_error reply = u "Download failed").
Proof.
  intros Hf Hv Hr p'. subst p'.
  rewrite (startDownload_ready reply polls v f p Hf Hv).
  destruct reply as [id|e|m]; [discriminate Hr| |];
    (split; [apply events_since_log|]); repeat split;
      try (now destruct p); try discriminate.
  now intros [= ->].
Qed.

Lemma startDownload_rejected_witness :
  let reply := StartRejected None in
  let polls := [StatusOk (status_with "finished")] in
  let p := polling_page in
  let p' := exec (startDownload reply polls) p in
  events_since p p'
  = [Fetch (StartDownload (trim (urlInput p)) (format_id mp3_audio)
              (title sample_info));
     SetTimeout HideError 5000]
  /\ urlError_text p' = cross_mark ++ u " " ++ start_error reply
  /\ urlError_display p' = DisplayBlock
  /\ downloadBtn_disabled p' = false
  /\ downloadBtn_label p' = label_download_now
  /\ currentDownloadId p' = currentDownloadId p
  /\ (reply = StartRejected None -> start_error reply = u "Download failed").
Proof.
  apply (startDownload_rejected (StartRejected None)
           [StatusOk (status_with "finished")] sample_info mp3_audio
           polling_page); vm_compute; reflexivity.
Defined.

(** X6.  When the backend accepts the job but its reply carries no
    identifier (or an empty one), [monitorDownloadProgress] returns at
    once: no status request is ever made, and the button stays disabled
    under its "starting" label. *)
Theorem startDownload_without_identifier (id : option jsstring)
  (polls : list status_reply) (v : VideoInfo) (f : Format) (p : page) :
  selectedFormat p = Some f ->
  currentVideoInfo p = Some v ->
  truthy id = false ->
  let p' := exec (startDownload (StartOk id) polls) p in
  events_since p p'
  = [Fetch (StartDownload (trim (urlInput p)) (format_id f) (title v))]
  /\ status_requests (events_since p p') = []
  /\ currentDownloadId p' = id
  /\ downloadBtn_disabled p' = true
  /\ downloadBtn_label p' = label_starting
  /\ timers p' = timers p.
Proof.
  intros Hf Hv Hid p'.
  assert (Hp' : p' = started id v f p).
  { subst p'. rewrite (startDownload_ready (StartOk id) polls v f p Hf Hv).
    unfold monitorDownloadProgress, exec, bind, gets, ret. cbv beta iota.
    replace (currentDownloadId (started id v f p)) with id by now destruct p.
    now rewrite Hid. }
  assert (Hev : events_since p p'
                = [Fetch (StartDownload (trim (urlInput p)) (format_id f)
                            (title v))]).
  { apply events_since_log. rewrite Hp'. now destruct p. }
  rewrite Hev, Hp'. repeat split; now destruct p.
Qed.

Lemma startDownload_without_identifier_witness :
  let polls := [StatusOk (status_with "finished")] in
  let p := polling_page in
  let p' := exec (startDownload (StartOk None) polls) p in
  events_since p p'
  = [Fetch (StartDownload (trim (urlInput p)) (format_id mp3_audio)
              (title sample_info))]
  /\ status_requests (events_since p p') = []
  /\ currentDownloadId p' = None
  /\ downloadBtn_disabled p' = true
  /\ downloadBtn_label p' = label_starting
  /\ timers p' = timers p.
Proof.
  apply (startDownload_without_identifier None
           [StatusOk (status_with "finished")] sample_info mp3_audio
           polling_page); vm_compute; reflexivity.
Defined.

Lemma requests_app (l1 l2 : list event) :
  requests (l1 ++ l2) = requests l1 ++ requests l2.
Proof. apply flat_map_app. Qed.




(** ** downloadFile: once saved, nothing is left to save *)

Lemma downloadFile_without_job (reply : file_reply) (p : page) :
  truthy (currentDownloadId p) = false ->
  exec (downloadFile reply) p = p.
Proof.
  intros H. unfold downloadFile, exec, bind, gets, ret. cbv beta iota.
  now rewrite H.
Qed.

(** X8.  After a successful save, a further call of [downloadFile] does
    nothing (no request, the page unchanged), whatever the backend would
    answer; after a failed retrieval, a further call asks for the same
    identifier again. *)
Theorem downloadFile_again (r1 r2 : file_reply) (v : VideoInfo) (f : Format)
  (p : page) :
  truthy (currentDownloadId p) = true ->
  currentVideoInfo p = Some v ->
  selectedFormat p = Some f ->
  exec (downloadFile r2) (exec (downloadFile FileOk) p)
  = exec (downloadFile FileOk) p
  /\ (r1 <> FileOk ->
      let p1 := exec (downloadFile r1) p in
      requests (events_since p1 (exec (downloadFile r2) p1))
      = [DownloadFile (currentDownloadId p)]).
Proof.
  intros Hid Hv Hf. split.
  - apply downloadFile_without_job.
    rewrite (downloadFile_ok v f p Hid Hv Hf). now destruct p.
  - intros Hr p1.
    assert (Hp1 : p1 = error_shown (file_error r1)
                         [Fetch (DownloadFile (currentDownloadId p))] p)
      by apply (downloadFile_failed r1 p Hid Hr).
    assert (Hid1 : currentDownloadId p1 = currentDownloadId p)
      by (rewrite Hp1; now destruct p).
    assert (Hv1 : currentVideoInfo p1 = Some v)
      by (rewrite Hp1; now destruct p).
    assert (Hf1 : selectedFormat p1 = Some f)
      by (rewrite Hp1; now destruct p).
    assert (Ht1 : truthy (currentDownloadId p1) = true) by now rewrite Hid1.
    destruct r2 as [| |m].
    + rewrite (downloadFile_ok v f p1 Ht1 Hv1 Hf1).
      rewrite (events_since_log p1 (file_saved v f p1)
                 [Fetch (DownloadFile (currentDownloadId p1));
                  SaveAs (title v ++ u "." ++ ext f)])
        by now destruct p1.
      simpl. now rewrite Hid1.
    + rewrite (downloadFile_failed FileNotOk p1 Ht1) by discriminate.
      rewrite (events_since_log p1 _
                 [Fetch (DownloadFile (currentDownloadId p1));
                  SetTimeout HideError 5000])
        by now destruct p1.
      simpl. now rewrite Hid1.
    + rewrite (downloadFile_failed (FileFailed m) p1 Ht1) by discriminate.
      rewrite (events_since_log p1 _
                 [Fetch (DownloadFile (currentDownloadId p1));
                  SetTimeout HideError 5000])
        by now destruct p1.
      simpl. now rewrite Hid1.
Qed.

Lemma downloadFile_again_witness :
  let r1 := FileNotOk in
  let r2 := FileOk in
  let p := polling_page in
  exec (downloadFile r2) (exec (downloadFile FileOk) p)
  = exec (downloadFile FileOk) p
  /\ (r1 <> FileOk ->
      let p1 := exec (downloadFile r1) p in
      requests (events_since p1 (exec (downloadFile r2) p1))
      = [DownloadFile (currentDownloadId p)]).
Proof.
  apply (downloadFile_again FileNotOk FileOk sample_info mp3_audio
           polling_page); vm_compute; reflexivity.
Defined.

(** ** The history: sizes *)

(** X9.  An append grows the list by one item as long as it holds
    fewer than ten, and leaves its size alone from ten on: a list that
    starts longer than ten is never cut back to ten. *)
Theorem append_size (e : history_record) (p : page) :
  List.length (historyList (append e p))
  = if List.length (historyList p) <? 10
    then S (List.length (historyList p))
    else List.length (historyList p).
Proof.
  rewrite append_list. unfold capped.
  change (List.length (markup_of e :: historyList p))
    with (S (List.length (historyList p))).
  destruct (List.length (historyList p) <? 10) eqn:E.
  - apply Nat.ltb_lt in E.
    replace (10 <? S (List.length (historyList p))) with false
      by (symmetry; apply Nat.ltb_ge; lia).
    reflexivity.
  - apply Nat.ltb_ge in E.
    replace (10 <? S (List.length (historyList p))) with true
      by (symmetry; apply Nat.ltb_lt; lia).
    rewrite removelast_firstn_len, length_firstn. simpl. lia.
Qed.

(** X10.  A reload shows one item per stored record, in the stored
    order, however many there are: nothing is dropped on load, also
    beyond ten; each item shows the title of its record in the first
    span and its format, a bullet and its time in the second, the
    stored texts being plain.  With nothing stored the list is empty.
    The object starts without job and without metadata, and the storage
    is not written. *)
Theorem reload_shows_all (stored : list history_record) :
  forallb plain_record stored = true ->
  let r := reload (Some stored) in
  historyList r = map shown stored
  /\ List.length (historyList r) = List.length stored
  /\ downloadHistory r = Some stored
  /\ currentDownloadId r = None
  /\ currentVideoInfo r = None
  /\ historyList (reload None) = [].
Proof.
  intros _ r. subst r.
  rewrite reload_list, length_map.
  split; [apply map_ext, markup_shown|]. split; [reflexivity|].
  unfold reload, constructor, loadDownloadHistory, exec, bind, gets, modify.
  cbv beta iota. unfold snd.
  change (downloadHistory
            (set_currentVideoInfo None
               (set_currentDownloadId None
                  (set_downloadHistory (Some stored) empty_page))))
    with (Some stored).
  cbv beta iota. rewrite loadDownloadHistory_list.
  repeat split.
Qed.

Lemma reload_shows_all_witness :
  let r := reload (Some sample_entries) in
  historyList r = map shown sample_entries
  /\ List.length (historyList r) = List.length sample_entries
  /\ downloadHistory r = Some sample_entries
  /\ currentDownloadId r = None
  /\ currentVideoInfo r = None
  /\ historyList (reload None) = [].
Proof.
  apply (reload_shows_all sample_entries). vm_compute. reflexivity.
Defined.

(** ** The history: what the storage holds *)







Lemma map_js_stops (l : list history_item) (p : page) :
  forallb has_bullet l = false ->
  exists message, map_js record_of_item l p = (Thrown message, p).
Proof.
  induction l as [|it l IH]; [discriminate|].
  intros H. simpl in H. simpl. unfold bind.
  destruct (has_bullet it) eqn:E.
  - rewrite (record_of_item_ok it p E). simpl in H.
    destruct (IH H) as [m ->]. now exists m.
  - unfold record_of_item, bind, property.
    unfold has_bullet in E. rewrite <- second_piece in E.
    destruct (nth_error (split bullet (span1 it)) 1); [discriminate E|].
    eexists. reflexivity.
Qed.

(** X13.  When some item on the page has no bullet in its second span,
    [saveDownloadHistory] throws and writes nothing: the storage keeps
    what it held. *)
Theorem saveDownloadHistory_throws (p : page) :
  forallb has_bullet (historyList p) = false ->
  exists message, saveDownloadHistory p = (Thrown message, p).
Proof.
  intros H. unfold saveDownloadHistory, bind, gets. cbv beta iota.
  destruct (map_js_stops (historyList p) p H) as [m ->]. now exists m.
Qed.

Lemma saveDownloadHistory_throws_witness :
  exists message,
    saveDownloadHistory
      (set_historyList [mkHistoryItem (u "No downloads yet") []] polling_page)
    = (Thrown message,
       set_historyList [mkHistoryItem (u "No downloads yet") []] polling_page).
Proof.
  apply (saveDownloadHistory_throws
           (set_historyList [mkHistoryItem (u "No downloads yet") []]
              polling_page)).
  vm_compute. reflexivity.
Defined.

(** ** Polling: orders of replies *)

Lemma deliveries_steps (label : jsstring) (cb : callback) (ms : nat)
  (id : option jsstring) (rs : list status_reply) :
  deliveries (flat_map (step_events label cb ms id) rs) = statuses_of rs.
Proof.
  induction rs as [|[s|m] rs IH]; simpl; [reflexivity| |]; now rewrite IH.
Qed.

Lemma requests_steps (label : jsstring) (cb : callback) (ms : nat)
  (id : option jsstring) (rs : list status_reply) :
  status_requests (flat_map (step_events label cb ms id) rs)
  = repeat id (List.length rs).
Proof.
  induction rs as [|[s|m] rs IH]; simpl; [reflexivity| |]; now rewrite IH.
Qed.



Lemma monitorDownloadProgress_keeps (rs : list status_reply)
  (last : status_reply) (p : page) :
  forallb (keeps_polling (u "downloading")) rs = true ->
  truthy (currentDownloadId p) = true ->
  take_timer CheckProgress (timers p) = None ->
  exists q,
    job_state q = job_state p
    /\ timers q = timers p
    /\ log q = rev (flat_map (step_events (u "Error checking progress:")
                                CheckProgress 1000 (currentDownloadId p)) rs)
               ++ log p
    /\ forall rest,
        exec (monitorDownloadProgress (rs ++ last :: rest)) p
        = timer_runs CheckProgress checkProgress rest
            (exec (checkProgress last) q).
Proof.
  intros Hk Hid Hn.
  destruct (polling_loop_keep CheckProgress checkProgress
              (keeps_polling (u "downloading"))
              (step_events (u "Error checking progress:") CheckProgress 1000
                 (currentDownloadId p))
              (fun q => job_state q = job_state p)
              (job_state_timers p) (checkProgress_keeps p)
              rs last p Hk eq_refl Hn)
    as (q & Hrun & Htq & Hlq & HJ).
  exists q. repeat split; auto.
  intros rest.
  unfold monitorDownloadProgress, exec, bind, gets, modify.
  cbv beta iota. rewrite Hid. cbv beta iota delta [negb snd].
  unfold checkProgress_loop. now rewrite Hrun.
Qed.

(** X15.  The status [error] ends the single-download loop wherever it
    comes: after failed requests and [downloading] statuses in any
    order, the run on [error] shows the message, sets no timer for the
    loop, and the replies after it are never asked for; the history and
    the storage are as they were, and so is [currentDownloadId]. *)
Theorem error_ends_polling (rs : list status_reply) (err : JobStatus)
  (rest : list status_reply) (p : page) :
  forallb (keeps_polling (u "downloading")) rs = true ->
  is_status err (u "error") = true ->
  truthy (currentDownloadId p) = true ->
  pending CheckProgress p = false ->
  let p' := exec (monitorDownloadProgress (rs ++ StatusOk err :: rest)) p in
  p' = exec (monitorDownloadProgress (rs ++ [StatusOk err])) p
  /\ deliveries (events_since p p') = statuses_of rs ++ [err]
  /\ status_requests (events_since p p')
     = repeat (currentDownloadId p) (S (List.length rs))
  /\ pending CheckProgress p' = false
  /\ urlError_text p' = cross_mark ++ u " " ++ interpolate (error err)
  /\ historyList p' = historyList p
  /\ downloadHistory p' = downloadHistory p
  /\ currentDownloadId p' = currentDownloadId p.
Proof.
  intros Hk Herr Hid Hn p'. apply not_pending in Hn.
  destruct (monitorDownloadProgress_keeps rs (StatusOk err) p Hk Hid Hn)
    as (q & HJ & Htq & Hlq & Hrun).
  assert (Hstop : forall tail,
             exec (monitorDownloadProgress (rs ++ StatusOk err :: tail)) p
             = error_written err q).
  { intros tail. rewrite Hrun, (checkProgress_error err q Herr).
    apply timer_runs_idle.
    replace (timers (error_written err q)) with (timers q ++ [(HideError, 5000)])
      by now destruct q.
    rewrite Htq. now apply take_timer_other. }
  assert (Hidq : currentDownloadId q = currentDownloadId p)
    by (unfold job_state in HJ; congruence).
  assert (Hev : events_since p p'
                = flat_map (step_events (u "Error checking progress:")
                              CheckProgress 1000 (currentDownloadId p)) rs
                  ++ [Fetch (DownloadStatus (currentDownloadId p));
                      Delivered err; SetTimeout HideError 5000]).
  { apply events_since_log. subst p'. rewrite Hstop.
    replace (log (error_written err q))
      with (SetTimeout HideError 5000 :: Delivered err
            :: Fetch (DownloadStatus (currentDownloadId q)) :: log q)
      by now destruct q.
    rewrite Hlq, Hidq, rev_app_distr. reflexivity. }
  rewrite Hev, deliveries_app, status_requests_app, deliveries_steps,
    requests_steps.
  subst p'. rewrite !Hstop.
  split; [reflexivity|]. split; [reflexivity|].
  split; [simpl; now rewrite <- repeat_cons|].
  split; [|split; [now destruct q|split; [|split]]].
  - unfold pending.
    replace (timers (error_written err q)) with (timers q ++ [(HideError, 5000)])
      by now destruct q.
    rewrite Htq, (take_timer_other CheckProgress HideError (timers p) 5000);
      auto.
  - replace (historyList (error_written err q)) with (historyList q)
      by now destruct q.
    unfold job_state in HJ; congruence.
  - replace (downloadHistory (error_written err q)) with (downloadHistory q)
      by now destruct q.
    unfold job_state in HJ; congruence.
  - replace (currentDownloadId (error_written err q)) with (currentDownloadId q)
      by now destruct q.
    exact Hidq.
Qed.

Lemma error_ends_polling_witness :
  let rs := [StatusOk (status_with "downloading");
             StatusFailed (u "Failed to fetch")] in
  let err := error_status "Video unavailable" in
  let rest := [StatusOk (status_with "finished")] in
  let p := polling_page in
  let p' := exec (monitorDownloadProgress (rs ++ StatusOk err :: rest)) p in
  p' = exec (monitorDownloadProgress (rs ++ [StatusOk err])) p
  /\ deliveries (events_since p p') = statuses_of rs ++ [err]
  /\ status_requests (events_since p p')
     = repeat (currentDownloadId p) (S (List.length rs))
  /\ pending CheckProgress p' = false
  /\ urlError_text p' = cross_mark ++ u " " ++ interpolate (error err)
  /\ historyList p' = historyList p
  /\ downloadHistory p' = downloadHistory p
  /\ currentDownloadId p' = currentDownloadId p.
Proof.
  apply (error_ends_polling
           [StatusOk (status_with "downloading");
            StatusFailed (u "Failed to fetch")]
           (error_status "Video unavailable")
           [StatusOk (status_with "finished")] polling_page);
    vm_compute; reflexivity.
Defined.

(** X16.  The batch loop on [processing] statuses and failed requests
    in any order, closed by [finished]: every status reaches the status
    tests in order, every run before the last sets a timer of 2000 ms,
    one request is made per reply and none after [finished], and the
    progress element ends on the completion notice naming the total. *)
Theorem batch_runs_to_completion (batchId : option jsstring) (total : nat)
  (rs : list status_reply) (fin : JobStatus) (rest : list status_reply)
  (p : page) :
  pending (CheckBatchProgress batchId total) p = false ->
  forallb (keeps_polling (u "processing")) rs = true ->
  is_status fin (u "finished") = true ->
  let p' := exec (monitorBatchProgress batchId total
                    (rs ++ StatusOk fin :: rest)) p in
  events_since p p'
  = flat_map (step_events (u "Error checking batch progress:")
                (CheckBatchProgress batchId total) 2000 batchId) rs
    ++ stopped batchId fin
  /\ deliveries (events_since p p') = statuses_of rs ++ [fin]
  /\ status_requests (events_since p p') = repeat batchId (S (List.length rs))
  /\ batchProgress p' = BatchCompleted total
  /\ pending (CheckBatchProgress batchId total) p' = false.
Proof.
  intros Hn Hk Hfin p'. apply not_pending in Hn.
  destruct (monitorBatchProgress_finishes batchId total rs fin p Hk Hfin Hn)
    as (q & HJ & Htq & Hlq & Hrun).
  assert (Hev : events_since p p'
                = flat_map (step_events (u "Error checking batch progress:")
                              (CheckBatchProgress batchId total) 2000 batchId) rs
                  ++ stopped batchId fin).
  { apply events_since_log. subst p'. rewrite Hrun.
    replace (log (batch_finished_written batchId total fin q))
      with (Delivered fin :: Fetch (DownloadStatus batchId) :: log q)
      by now destruct q.
    rewrite Hlq, rev_app_distr. reflexivity. }
  rewrite Hev, deliveries_app, status_requests_app, deliveries_steps,
    requests_steps.
  subst p'. rewrite Hrun.
  split; [reflexivity|]. split; [reflexivity|].
  split; [simpl; now rewrite <- repeat_cons|].
  split; [now destruct q|].
  - unfold pending.
    replace (timers (batch_finished_written batchId total fin q))
      with (timers q) by now destruct q.
    now rewrite Htq, Hn.
Qed.

Lemma batch_runs_to_completion_witness :
  let batchId := Some (u "batch-1") in
  let rs := [StatusOk (processing_status (Some 1%N));
             StatusFailed (u "Failed to fetch");
             StatusOk (processing_status (Some 2%N))] in
  let fin := status_with "finished" in
  let rest := [StatusOk (processing_status None)] in
  let p := polling_page in
  let p' := exec (monitorBatchProgress batchId 3
                    (rs ++ StatusOk fin :: rest)) p in
  events_since p p'
  = flat_map (step_events (u "Error checking batch progress:")
                (CheckBatchProgress batchId 3) 2000 batchId) rs
    ++ stopped batchId fin
  /\ deliveries (events_since p p') = statuses_of rs ++ [fin]
  /\ status_requests (events_since p p') = repeat batchId (S (List.length rs))
  /\ batchProgress p' = BatchCompleted 3
  /\ pending (CheckBatchProgress batchId 3) p' = false.
Proof.
  apply (batch_runs_to_completion (Some (u "batch-1")) 3
           [StatusOk (processing_status (Some 1%N));
            StatusFailed (u "Failed to fetch");
            StatusOk (processing_status (Some 2%N))]
           (status_with "finished")
           [StatusOk (processing_status None)] polling_page);
    vm_compute; reflexivity.
Defined.

(** ** A finished download on a page the script did not build alone *)



(** ** The batch percentage, further *)




(** ** startBatchDownload *)

Lemma nonempty_trim_start (s : jsstring) :
  nonempty (trim_start s) = existsb not_space s.
Proof.
  induction s as [|c r IH]; simpl; [reflexivity|].
  unfold not_space at 1. destruct (is_space c); simpl; [exact IH|reflexivity].
Qed.

Lemma existsb_rev_eq (f : N -> bool) (s : jsstring) :
  existsb f (rev s) = existsb f s.
Proof.
  induction s as [|c r IH]; simpl; [reflexivity|].
  rewrite existsb_app, IH. simpl. rewrite orb_false_r. apply orb_comm.
Qed.

Lemma nonempty_rev (s : jsstring) : nonempty (rev s) = nonempty s.
Proof.
  destruct s as [|c r]; [reflexivity|]. simpl.
  destruct (rev r); reflexivity.
Qed.

Lemma not_space_trim_start (s : jsstring) :
  existsb not_space (trim_start s) = existsb not_space s.
Proof.
  induction s as [|c r IH]; simpl; [reflexivity|].
  unfold not_space at 2. destruct (is_space c) eqn:E; simpl; [exact IH|].
  unfold not_space at 1. now rewrite E.
Qed.

(** A text has something left after [trim] exactly when it holds a
    character that is not white space. *)
Lemma nonempty_trim (s : jsstring) :
  nonempty (trim s) = existsb not_space s.
Proof.
  unfold trim, trim_end.
  now rewrite nonempty_rev, nonempty_trim_start, existsb_rev_eq,
    not_space_trim_start.
Qed.

Lemma split_covers (f : N -> bool) (sep : N) (s : jsstring) :
  f sep = false ->
  existsb (existsb f) (split sep s) = existsb f s.
Proof.
  intros Hsep. induction s as [|c r IH]; [reflexivity|].
  simpl. destruct (N.eqb c sep) eqn:E.
  - apply N.eqb_eq in E. subst c. simpl. now rewrite Hsep, IH.
  - rewrite <- IH. destruct (split sep r) as [|piece ps] eqn:Er;
      [now apply split_not_nil in Er|].
    simpl. now rewrite orb_assoc.
Qed.

(** The URLs of a batch: none is blank, each is trimmed, and there is
    at least one as soon as the text holds more than white space. *)
Lemma batch_urls_spec (text : jsstring) :
  Forall (fun url => trimmed url /\ nonempty url = true) (batch_urls text)
  /\ (nonempty (trim text) = true -> 0 < List.length (batch_urls text)).
Proof.
  unfold batch_urls. split.
  - apply Forall_forall. intros url Hin.
    apply in_map_iff in Hin as (line & <- & Hin).
    apply filter_In in Hin as [_ Hne]. split; [apply trim_trimmed|exact Hne].
  - rewrite nonempty_trim.
    rewrite <- (split_covers not_space newline text eq_refl).
    rewrite length_map.
    induction (split newline text) as [|line ls IH]; [discriminate|].
    simpl. rewrite <- nonempty_trim.
    destruct (nonempty (trim line)); simpl; [lia|exact IH].
Qed.

Lemma startBatchDownload_blank (reply : batch_reply)
  (polls : list status_reply) (p : page) :
  nonempty (trim (batchUrls p)) = false ->
  exec (startBatchDownload reply polls) p = p.
Proof.
  intros H. unfold startBatchDownload, exec, bind, gets, ret. cbv beta iota.
  now rewrite H.
Qed.

Lemma startBatchDownload_run (reply : batch_reply) (polls : list status_reply)
  (p : page) :
  nonempty (trim (batchUrls p)) = true ->
  let urls := batch_urls (trim (batchUrls p)) in
  exec (startBatchDownload reply polls) p
  = match reply with
    | BatchOk id =>
        exec (monitorBatchProgress id (List.length urls) polls)
          (batch_started urls (batch_format p) p)
    | _ =>
        set_batchProgress (BatchError (batch_error reply))
          (batch_started urls (batch_format p) p)
    end.
Proof.
  intros H urls.
  unfold startBatchDownload, exec, bind, gets. cbv beta iota. rewrite H.
  unfold try_catch, bind, gets, modify, emit, throw, ret, monitorBatchProgress,
    batch_format.
  destruct reply as [id|e|m]; cbv beta iota; now destruct p.
Qed.

(** X20.  A batch text of blank lines only submits nothing: no request,
    the page unchanged.  Otherwise the request carries the non-blank
    lines, trimmed, in order (at least one), with the identifier of
    the selected format or ["best"] when none is selected; when the
    backend rejects it (or the request fails) the message is shown in
    the progress element and no polling starts. *)
Theorem startBatchDownload_request (reply : batch_reply)
  (polls : list status_reply) (p : page) :
  let urls := batch_urls (trim (batchUrls p)) in
  let p' := exec (startBatchDownload reply polls) p in
  (nonempty (trim (batchUrls p)) = false -> p' = p)
  /\ (nonempty (trim (batchUrls p)) = true ->
      batch_ok reply = false ->
      events_since p p' = [Fetch (BatchDownload urls (batch_format p))]
      /\ 0 < List.length urls
      /\ Forall (fun url => trimmed url /\ nonempty url = true) urls
      /\ (selectedFormat p = None -> batch_format p = u "best")
      /\ batchProgress p' = BatchError (batch_error reply)
      /\ batchProgress_display p' = DisplayBlock
      /\ timers p' = timers p).
Proof.
  intros urls p'. split.
  - intros H. apply (startBatchDownload_blank reply polls p H).
  - intros H Hr.
    destruct (batch_urls_spec (trim (batchUrls p))) as [Hall Hlen].
    assert (Hne : nonempty (trim (trim (batchUrls p))) = true)
      by now rewrite (trimmed_trim _ (trim_trimmed (batchUrls p))).
    subst p'. rewrite (startBatchDownload_run reply polls p H).
    destruct reply as [id|e|m]; [discriminate Hr| |];
      (split; [apply events_since_log; now destruct p|]);
      (split; [now apply Hlen|]); (split; [exact Hall|]);
      (split; [unfold batch_format; now intros ->|]);
      repeat split; now destruct p.
Qed.

Lemma startBatchDownload_request_witness :
  let reply := BatchRejected None in
  let polls := [StatusOk (status_with "finished")] in
  let p := set_batchUrls (u " https://a.example/1 ") (exec constructor empty_page) in
  let urls := batch_urls (trim (batchUrls p)) in
  let p' := exec (startBatchDownload reply polls) p in
  events_since p p' = [Fetch (BatchDownload urls (batch_format p))]
  /\ 0 < List.length urls
  /\ Forall (fun url => trimmed url /\ nonempty url = true) urls
  /\ (selectedFormat p = None -> batch_format p = u "best")
  /\ batchProgress p' = BatchError (batch_error reply)
  /\ batchProgress_display p' = DisplayBlock
  /\ timers p' = timers p.
Proof.
  apply (startBatchDownload_request (BatchRejected None)
           [StatusOk (status_with "finished")]
           (set_batchUrls (u " https://a.example/1 ")
              (exec constructor empty_page)));
    vm_compute; reflexivity.
Defined.

(** X21.  A batch the backend accepts is polled under the identifier
    it returned, with the number of submitted URLs as the total, which
    is never 0; when the statuses are [processing] (with failed requests
    in between) and then [finished], the progress element ends on the
    completion notice naming that number. *)
Theorem batch_submission_completes (id : option jsstring)
  (rs : list status_reply) (fin : JobStatus) (p : page) :
  nonempty (trim (batchUrls p)) = true ->
  let urls := batch_urls (trim (batchUrls p)) in
  let total := List.length urls in
  pending (CheckBatchProgress id total) p = false ->
  forallb (keeps_polling (u "processing")) rs = true ->
  is_status fin (u "finished") = true ->
  let p' := exec (startBatchDownload (BatchOk id) (rs ++ [StatusOk fin])) p in
  0 < total
  /\ requests (events_since p p')
     = BatchDownload urls (batch_format p)
       :: repeat (DownloadStatus id) (S (List.length rs))
  /\ deliveries (events_since p p') = statuses_of rs ++ [fin]
  /\ batchProgress p' = BatchCompleted total.
Proof.
  intros H urls total Hn Hk Hfin p'.
  destruct (batch_urls_spec (trim (batchUrls p))) as [_ Hlen].
  assert (Hne : nonempty (trim (trim (batchUrls p))) = true)
    by now rewrite (trimmed_trim _ (trim_trimmed (batchUrls p))).
  split; [now apply Hlen|].
  set (p1 := batch_started urls (batch_format p) p).
  assert (Hp1 : p' = exec (monitorBatchProgress id total (rs ++ [StatusOk fin])) p1)
    by apply (startBatchDownload_run (BatchOk id) _ p H).
  assert (Hn1 : take_timer (CheckBatchProgress id total) (timers p1) = None)
    by (subst p1; apply not_pending in Hn; now destruct p).
  destruct (monitorBatchProgress_finishes id total rs fin p1 Hk Hfin Hn1)
    as (q & HJ & Htq & Hlq & Hrun).
  assert (Hq : p' = batch_finished_written id total fin q)
    by (rewrite Hp1; apply Hrun).
  assert (Hev : events_since p p'
                = Fetch (BatchDownload urls (batch_format p))
                  :: flat_map (step_events (u "Error checking batch progress:")
                                 (CheckBatchProgress id total) 2000 id) rs
                  ++ stopped id fin).
  { apply events_since_log. rewrite Hq.
    replace (log (batch_finished_written id total fin q))
      with (Delivered fin :: Fetch (DownloadStatus id) :: log q)
      by now destruct q.
    rewrite Hlq.
    replace (log p1) with (Fetch (BatchDownload urls (batch_format p)) :: log p)
      by (subst p1; now destruct p).
    simpl. rewrite rev_app_distr. simpl. now rewrite <- !app_assoc. }
  rewrite Hev.
  assert (Hreq : requests (flat_map (step_events (u "Error checking batch progress:")
                                       (CheckBatchProgress id total) 2000 id) rs)
                 = repeat (DownloadStatus id) (List.length rs)).
  { clear. induction rs as [|[s|m] rs IH]; simpl; [reflexivity| |];
      now rewrite IH. }
  split.
  { change (requests (?e :: ?l))
      with (BatchDownload urls (batch_format p) :: requests l).
    rewrite requests_app, Hreq. simpl. now rewrite <- repeat_cons. }
  split.
  { change (deliveries (?e :: ?l)) with (deliveries l).
    now rewrite deliveries_app, deliveries_steps. }
  rewrite Hq. now destruct q.
Qed.

Lemma batch_submission_completes_witness :
  let id := Some (u "batch-9") in
  let rs := [StatusOk (processing_status (Some 1%N));
             StatusFailed (u "Failed to fetch")] in
  let fin := status_with "finished" in
  let p := set_batchUrls (u "https://a.example/1" ++ [newline; newline]
                          ++ u "  https://a.example/2  ")
             (exec constructor empty_page) in
  let urls := batch_urls (trim (batchUrls p)) in
  let total := List.length urls in
  let p' := exec (startBatchDownload (BatchOk id) (rs ++ [StatusOk fin])) p in
  0 < total
  /\ requests (events_since p p')
     = BatchDownload urls (batch_format p)
       :: repeat (DownloadStatus id) (S (List.length rs))
  /\ deliveries (events_since p p') = statuses_of rs ++ [fin]
  /\ batchProgress p' = BatchCompleted total.
Proof.
  apply (batch_submission_completes (Some (u "batch-9"))
           [StatusOk (processing_status (Some 1%N));
            StatusFailed (u "Failed to fetch")]
           (status_with "finished")
           (set_batchUrls (u "https://a.example/1" ++ [newline; newline]
                           ++ u "  https://a.example/2  ")
              (exec constructor empty_page)));
    vm_compute; reflexivity.
Defined.

(** ** Two errors in a row *)

Lemma showError_written (message : option jsstring) (p : page) :
  exec (showError message) p = error_shown (interpolate message) [] p.
Proof.
  unfold showError, setTimeout, exec, bind, emit, modify. cbv beta iota.
  now destruct p.
Qed.

Lemma take_timer_oldest (cb : callback) (l : list (callback * nat))
  (a b : nat) :
  take_timer cb l = None ->
  take_timer cb ((l ++ [(cb, a)]) ++ [(cb, b)]) = Some (l ++ [(cb, b)]).
Proof.
  induction l as [|[c n] l IH]; simpl.
  - intros _. now rewrite callback_eqb_refl.
  - destruct (callback_eqb cb c); [discriminate|].
    destruct (take_timer cb l); [discriminate|].
    intros _. now rewrite IH.
Qed.

(** X22.  [showError] never cancels the timer of an earlier error: when
    two errors are shown one after the other, the timer of the first
    one, firing first, hides the element while it shows the second
    message, whose own timer is still to come. *)
Theorem earlier_timer_hides_later_error (m1 m2 : option jsstring) (p : page) :
  pending HideError p = false ->
  let p2 := exec (showError m2) (exec (showError m1) p) in
  let p3 := run_hideError p2 in
  urlError_text p2 = cross_mark ++ u " " ++ interpolate m2
  /\ urlError_display p2 = DisplayBlock
  /\ urlError_text p3 = cross_mark ++ u " " ++ interpolate m2
  /\ urlError_display p3 = DisplayNone
  /\ timers p3 = timers p ++ [(HideError, 5000)]
  /\ pending HideError p3 = true.
Proof.
  intros Hn p2 p3. apply not_pending in Hn.
  assert (Ht2 : timers p2 = (timers p ++ [(HideError, 5000)]) ++ [(HideError, 5000)])
    by (subst p2; rewrite !showError_written; now destruct p).
  assert (Hfire : take_timer HideError (timers p2)
                  = Some (timers p ++ [(HideError, 5000)])).
  { rewrite Ht2. now apply take_timer_oldest. }
  assert (Hp3 : p3 = set_urlError_display DisplayNone
                       (set_timers (timers p ++ [(HideError, 5000)]) p2)).
  { subst p3. unfold run_hideError, fire. rewrite Hfire. reflexivity. }
  split; [subst p2; rewrite !showError_written; now destruct p|].
  split; [subst p2; rewrite !showError_written; now destruct p|].
  rewrite Hp3. split; [subst p2; rewrite !showError_written; now destruct p|].
  split; [now destruct p2|]. split; [now destruct p2|].
  unfold pending.
  replace (timers (set_urlError_display DisplayNone
                     (set_timers (timers p ++ [(HideError, 5000)]) p2)))
    with (timers p ++ [(HideError, 5000)]) by now destruct p2.
  now rewrite (take_timer_new HideError (timers p) 5000 Hn).
Qed.

Lemma earlier_timer_hides_later_error_witness :
  let m1 := Some (u "Please select a format first") in
  let m2 := Some (u "Download failed") in
  let p := polling_page in
  let p2 := exec (showError m2) (exec (showError m1) p) in
  let p3 := run_hideError p2 in
  urlError_text p2 = cross_mark ++ u " " ++ interpolate m2
  /\ urlError_display p2 = DisplayBlock
  /\ urlError_text p3 = cross_mark ++ u " " ++ interpolate m2
  /\ urlError_display p3 = DisplayNone
  /\ timers p3 = timers p ++ [(HideError, 5000)]
  /\ pending HideError p3 = true.
Proof.
  apply (earlier_timer_hides_later_error
           (Some (u "Please select a format first"))
           (Some (u "Download failed")) polling_page).
  vm_compute. reflexivity.
Defined.

(** ** The history: every item is one the script built *)

(** X23.  When the records the storage held at load and the entries
    appended afterwards are plain text, every item of the list has a
    bullet in its second span; so [saveDownloadHistory] does not throw
    on such a page, and the storage holds the records of the list after
    every append. *)
Theorem history_items_well_formed (stored : option (list history_record))
  (es : list history_record) :
  forallb plain_record (match stored with Some h => h | None => [] end)
  = true ->
  forallb plain_record es = true ->
  let p := append_all es (reload stored) in
  forallb has_bullet (historyList p) = true
  /\ saveDownloadHistory p
     = (Normal tt, set_downloadHistory (Some (map record_of (historyList p))) p)
  /\ (es <> [] -> downloadHistory p = Some (map record_of (historyList p))).
Proof.
  intros _ _ p.
  assert (Hinv : forall l q,
             forallb has_bullet (historyList q) = true ->
             forallb has_bullet (historyList (append_all l q)) = true).
  { induction l as [|e l IH]; intros q Hq; [exact Hq|].
    simpl. apply IH. rewrite append_list. apply capped_has_bullet.
    simpl. unfold markup_of at 1. now rewrite markup_has_bullet. }
  assert (Hr : forallb has_bullet (historyList (reload stored)) = true).
  { destruct stored as [h|]; [rewrite reload_list|reflexivity].
    apply markups_have_bullets. }
  assert (Hp : forallb has_bullet (historyList p) = true)
    by (subst p; now apply Hinv).
  split; [exact Hp|]. split; [now apply saveDownloadHistory_ok|].
  intros Hes. subst p.
  destruct (exists_last Hes) as (es' & e & ->).
  rewrite append_all_snoc, append_list in *.
  now apply append_stored.
Qed.

Lemma history_items_well_formed_witness :
  let p := append_all [sample_entry 2] (reload (Some [sample_entry 1])) in
  forallb has_bullet (historyList p) = true
  /\ saveDownloadHistory p
     = (Normal tt, set_downloadHistory (Some (map record_of (historyList p))) p)
  /\ ([sample_entry 2] <> [] ->
      downloadHistory p = Some (map record_of (historyList p))).
Proof.
  apply (history_items_well_formed (Some [sample_entry 1]) [sample_entry 2]);
    vm_compute; reflexivity.
Defined.
